(** * pretix control panel: authentication views

    A shallow embedding of [src/pretix/control/views/auth.py] (login,
    registration, invite acceptance, password reset and the second-factor
    step) together with the properties of its session-elevation state
    machine.

    The views are Python functions that mutate the request (session, user,
    message store), the database, the Redis cooldown store and the mail
    queue, and that may raise.  They are embedded as computations in a
    state-and-exception monad over an explicit [World]. *)

From Stdlib Require Import ZArith QArith Qround Lqa.
From Stdlib Require Import Ascii String DecimalString DecimalPos DecimalZ.
From stdpp Require Import base gmap strings list.

Local Open Scope Z_scope.
Local Open Scope string_scope.

(** ** Python values held in the session *)

Inductive pyval :=
| PyNone
| PyBool (b : bool)
| PyInt (z : Z)
| PyStr (s : string).

#[global] Instance pyval_eq_dec : EqDecision pyval.
Proof. solve_decision. Defined.

(** Exceptions that can leave a view. *)
Inductive exn :=
| PermissionDenied (msg : string)
| KeyError (key : string)
| ValueError
| TypeError
| AttributeError
| IntegrityError
| DatabaseError
| DoesNotExist
| SendMailException.

#[global] Instance exn_eq_dec : EqDecision exn.
Proof. solve_decision. Defined.

Inductive Result (A : Type) :=
| Ok (a : A)
| Raise (e : exn).
Arguments Ok {A} a.
Arguments Raise {A} e.

(** ** [str] and [int] on the values the views convert *)

Module Py.

(** [str(n)] for an [int]: decimal digits, a leading minus sign for
    negative numbers. *)
Definition str_of_int (z : Z) : string :=
  NilZero.string_of_int (Z.to_int z).

(** Text.  A [string] stands for a Python [str] all of whose code points
    lie below U+0100: the character with code [n] is the code point [n].
    Text with a code point from U+0100 on is not represented. *)

(** [c.isspace()], the characters [str.strip()] removes: U+0009 to U+000D,
    U+001C to U+0020, U+0085 and U+00A0. *)
Definition is_space (c : ascii) : bool :=
  let n := nat_of_ascii c in
  ((9 <=? n)%nat && (n <=? 13)%nat) || ((28 <=? n)%nat && (n <=? 32)%nat)
  || (n =? 133)%nat || (n =? 160)%nat.

(** The characters [int()] skips around a literal.  The parser skips the
    blanks of C's [isspace], U+0009 to U+000D and U+0020; before it runs,
    [int()] turns every character from U+007F on for which [isspace()]
    holds into a blank.  The separators U+001C to U+001F are not
    skipped. *)
Definition is_int_space (c : ascii) : bool :=
  let n := nat_of_ascii c in
  ((9 <=? n)%nat && (n <=? 13)%nat) || (n =? 32)%nat
  || (n =? 133)%nat || (n =? 160)%nat.

Fixpoint lstrip_chars (sp : ascii → bool) (s : string) : string :=
  match s with
  | String c s' => if sp c then lstrip_chars sp s' else s
  | EmptyString => EmptyString
  end.

Fixpoint rstrip_chars (sp : ascii → bool) (s : string) : string :=
  match s with
  | String c s' =>
      match rstrip_chars sp s' with
      | EmptyString => if sp c then EmptyString else String c EmptyString
      | r => String c r
      end
  | EmptyString => EmptyString
  end.

(** [s.strip()]. *)
Definition strip (s : string) : string :=
  rstrip_chars is_space (lstrip_chars is_space s).

(** [s.replace(' ', '')]. *)
Fixpoint remove_spaces (s : string) : string :=
  match s with
  | String c s' =>
      if Ascii.eqb c " " then remove_spaces s' else String c (remove_spaces s')
  | EmptyString => EmptyString
  end.

(** [s.startswith(c)] for a one-character prefix. *)
Definition startswith_char (c : ascii) (s : string) : bool :=
  match s with
  | String c' _ => Ascii.eqb c' c
  | EmptyString => false
  end.

(** Digit-group separators of an integer literal: a single underscore is
    allowed between two digits, nowhere else.  [after_digit] tells whether
    the previous character was a digit. *)
Fixpoint drop_separators (after_digit : bool) (s : string) : option string :=
  match s with
  | EmptyString => if after_digit then Some EmptyString else None
  | String c s' =>
      if Ascii.eqb c "_"
      then (if after_digit then drop_separators false s' else None)
      else option_map (String c) (drop_separators true s')
  end.

Definition digits_value (s : string) : option Z :=
  match drop_separators false s with
  | Some ds => option_map Z.of_uint (NilZero.uint_of_string ds)
  | None => None
  end.

(** [int(s)] for a [str] in base ten: the characters [int()] skips, an
    optional sign, then decimal digits with single underscores between
    them; [None] stands for [ValueError].  Below U+0100 the decimal digits
    are the ASCII ones.  The length of a literal is not limited, as in the
    interpreters before Python 3.11. *)
Definition int_of_str (s : string) : option Z :=
  match rstrip_chars is_int_space (lstrip_chars is_int_space s) with
  | String "+" r => digits_value r
  | String "-" r => option_map Z.opp (digits_value r)
  | r => digits_value r
  end.

(** [int(v)]. *)
Definition int (v : pyval) : Result Z :=
  match v with
  | PyInt z => Ok z
  | PyBool b => Ok (if b then 1 else 0)
  | PyStr s => match int_of_str s with Some z => Ok z | None => Raise ValueError end
  | PyNone => Raise TypeError
  end.

(** [int(x)] for a [float]: truncation towards zero. *)
Definition int_of_float (q : Q) : Z :=
  if Qle_bool 0 q then Qfloor q else Qceiling q.

End Py.

(** ** Data model *)

(** Modelled from the spec: the [User] model of [pretix.base.models], which
    is not part of the source at hand.  A principal has an email, a
    password hash ([password]), a locale, a timezone, an active flag and a
    flag requiring a second factor; [pk] is its primary key. *)
Record User := mkUser {
  pk : Z;
  email : string;
  password : string;
  is_active : bool;
  require_2fa : bool;
  locale : string;
  timezone : string
}.

#[global] Instance User_eq_dec : EqDecision User.
Proof. solve_decision. Defined.

(** Modelled from the spec: [Team] of [pretix.base.models], as far as the
    views use it. *)
Record Team := mkTeam {
  team_pk : Z;
  team_name : string
}.

#[global] Instance Team_eq_dec : EqDecision Team.
Proof. solve_decision. Defined.

(** Modelled from the spec: [TeamInvite] of [pretix.base.models], a token
    bound to one team and to one invited address. *)
Record TeamInvite := mkInvite {
  inv_team : Team;
  inv_email : string;
  inv_token : string
}.

(** Modelled from the spec: [U2FDevice] of [pretix.base.models], the
    hardware registration of one user, confirmed or not. *)
Record U2FDevice := mkU2F {
  u2f_user : Z;
  u2f_confirmed : bool;
  u2f_json_data : string
}.

(** The object a log entry is attached to by [obj.log_action(...)]. *)
Inductive LogObject :=
| OnUser (user_pk : Z)
| OnTeam (team : Z).

#[global] Instance LogObject_eq_dec : EqDecision LogObject.
Proof. solve_decision. Defined.

(** Modelled from the spec: an entry of the append-only action log. *)
Record LogEntry := mkLog {
  log_object : LogObject;
  log_type : string;
  log_user : option Z;
  log_data : list (string * pyval)
}.

#[global] Instance LogEntry_eq_dec : EqDecision LogEntry.
Proof. solve_decision. Defined.

(** Modelled from the spec: persistent storage behind the models, for the
    operations the views perform (lookup of a user by id or email, creation
    of a user, password change, log append, lookup and deletion of an
    invite, team membership, confirmed devices of a user).
    [users] is keyed by primary key, [users_seq] is
    the next value of the primary-key sequence, [members] holds the
    (team, user) pairs of the team membership relation, [invites] is keyed
    by token and [logentries] is the append-only action log, oldest entry
    first. *)
Record DB := mkDB {
  users : gmap Z User;
  users_seq : Z;
  members : gset (Z * Z);
  invites : gmap string TeamInvite;
  logentries : list LogEntry;
  u2fdevices : list U2FDevice
}.

(** Modelled from the spec: what is handed to
    [pretix.base.services.mail.mail]: recipient, subject, template, the
    recovery link of the context and the locale. *)
Record Mail := mkMail {
  mail_to : string;
  mail_subject : string;
  mail_template : string;
  mail_url : string;
  mail_locale : string
}.

Inductive Level := LevelError | LevelSuccess.

#[global] Instance Level_eq_dec : EqDecision Level.
Proof. solve_decision. Defined.

(** Calls into the second-factor collaborators, recorded in order. *)
Inductive Event :=
| EvMatchToken (user_pk : Z) (token : string)
| EvVerifyAuthenticate (devices : list string) (challenge : pyval)
    (token : string) (app_ids : list string)
| EvStartAuthenticate (devices : list string) (challenge : string).

(** Everything a view can change.  [session] is [request.session], [user]
    is [request.user] ([None] for the anonymous user), [messages] the
    message store of the request, [redis] the cooldown store (key to value
    and expiry instant), [outbox] the mails handed to the mail service and
    [trace] the calls made to the second-factor collaborators.  [ticks]
    counts the interactions with the environment whose answer the view does
    not control (clock readings, storage writes, mail hand-over, random
    bytes): the [n]-th answer is read from the oracles of [Externals]
    below. *)
Record World := mkWorld {
  session : gmap string pyval;
  user : option User;
  messages : list (Level * string);
  db : DB;
  redis : gmap string (string * Q);
  outbox : list Mail;
  trace : list Event;
  ticks : nat
}.

Definition set_session (f : gmap string pyval → gmap string pyval) (w : World) : World :=
  mkWorld (f (session w)) (user w) (messages w) (db w) (redis w) (outbox w) (trace w) (ticks w).
Definition set_user (u : option User) (w : World) : World :=
  mkWorld (session w) u (messages w) (db w) (redis w) (outbox w) (trace w) (ticks w).
Definition add_message (m : Level * string) (w : World) : World :=
  mkWorld (session w) (user w) (messages w ++ [m]) (db w) (redis w) (outbox w) (trace w) (ticks w).
Definition set_db (d : DB) (w : World) : World :=
  mkWorld (session w) (user w) (messages w) d (redis w) (outbox w) (trace w) (ticks w).
Definition set_redis (r : gmap string (string * Q)) (w : World) : World :=
  mkWorld (session w) (user w) (messages w) (db w) r (outbox w) (trace w) (ticks w).
Definition add_mail (m : Mail) (w : World) : World :=
  mkWorld (session w) (user w) (messages w) (db w) (redis w) (outbox w ++ [m]) (trace w) (ticks w).
Definition add_event (e : Event) (w : World) : World :=
  mkWorld (session w) (user w) (messages w) (db w) (redis w) (outbox w) (trace w ++ [e]) (ticks w).
Definition tick (w : World) : World :=
  mkWorld (session w) (user w) (messages w) (db w) (redis w) (outbox w) (trace w) (S (ticks w)).

(** ** The request *)

Inductive Method := GET | POST | HEAD | OPTIONS | OtherMethod.

#[global] Instance Method_eq_dec : EqDecision Method.
Proof. solve_decision. Defined.

(** The read-only part of an [HttpRequest].  [req_timezone] is [None] when
    the request has no [timezone] attribute. *)
Record Request := mkRequest {
  method : Method;
  req_GET : gmap string string;
  req_POST : gmap string string;
  is_secure : bool;
  get_host : string;
  LANGUAGE_CODE : string;
  req_timezone : option string
}.

(** Template context values and responses. *)
Inductive ctxval :=
| CForm (bound : bool)
| CBool (b : bool)
| CJson (j : option string).

Inductive HttpResponse :=
| Redirect (to : string)
| Render (template : string) (ctx : list (string * ctxval))
| NotAllowed
| OptionsResponse.

(** ** Collaborators outside this module *)

Record Settings := mkSettings {
  PRETIX_REGISTRATION : bool;
  PRETIX_PASSWORD_RESET : bool;
  PRETIX_LONG_SESSIONS : bool;
  HAS_REDIS : bool;
  TIME_ZONE : string
}.

(** Cleaned data of [LoginForm] and of [RegistrationForm]. *)
Record LoginData := mkLoginData {
  user_cache : option User;
  login_keep_logged_in : bool
}.

Record RegistrationData := mkRegData {
  reg_email : string;
  reg_password : string;
  reg_keep_logged_in : bool
}.

(** What the views take from outside: the settings, Django, django_otp,
    python-u2flib-server, the forms of [pretix.base.forms.auth] (not part of
    the source at hand, hence parameters) and the answers of the
    environment.  Each form function returns the cleaned data of a valid
    form and [None] for an invalid one.  [session_login] and
    [session_logout] are what Django's [login] and [logout] do to the
    session dictionary.  [verify_authenticate] tells whether
    [u2f.verify_authenticate] returns ([true]) or raises.  A clock reading
    is the float [time.time()] returns, taken as the rational it denotes. *)
Record Externals := mkExternals {
  settings : Settings;
  (* oracles, indexed by [ticks] *)
  clock : nat → Q;
  db_fault : nat → bool;
  mail_fault : nat → bool;
  rand_bytes : nat → string;
  (* django.contrib.auth *)
  session_login : gmap string pyval → User → gmap string pyval;
  session_logout : gmap string pyval → gmap string pyval;
  make_password : string → string;
  check_password : string → string → bool;
  make_token : User → string;
  check_token : User → option string → bool;
  (* django.urls, django.utils.http, urllib *)
  reverse : string → string;
  build_absolute_uri : string → string;
  is_safe_url : string → bool;
  quote : string → string;
  (* django_otp, u2flib_server *)
  match_token : User → string → bool;
  verify_authenticate : list string → pyval → string → list string → bool;
  start_authenticate : list string → string → string;
  (* pretix.base.forms.auth *)
  LoginForm : DB → gmap string string → option LoginData;
  RegistrationForm : DB → gmap string string → option RegistrationData;
  PasswordForgotForm : DB → gmap string string → option User;
  PasswordRecoverForm : DB → gmap string string → option string → option string
}.

(** ** The monad of views: state over [World], with exceptions *)

Definition M (A : Type) : Type := World → Result A * World.

Definition ret {A} (a : A) : M A := λ w, (Ok a, w).

Definition bind {A B} (m : M A) (k : A → M B) : M B :=
  λ w, match m w with
       | (Ok a, w') => k a w'
       | (Raise e, w') => (Raise e, w')
       end.

Definition raise {A} (e : exn) : M A := λ w, (Raise e, w).

Declare Scope view_scope.
Delimit Scope view_scope with view.
Notation "x ← m ; k" := (bind m (λ x, k))
  (at level 20, m at level 100, k at level 200, only parsing) : view_scope.
Notation "m ;; k" := (bind m (λ _, k))
  (at level 100, k at level 200, only parsing, right associativity) : view_scope.
Local Open Scope view_scope.

(** [try: body except <catches>: handler]. *)
Definition try_except {A} (body : M A) (catches : exn → bool) (handler : M A) : M A :=
  λ w, match body w with
       | (Raise e, w') => if catches e then handler w' else (Raise e, w')
       | r => r
       end.

(** The [except] clauses of the views. *)
Definition is_DoesNotExist (e : exn) : bool :=
  match e with DoesNotExist => true | _ => false end.
Definition is_SendMailException (e : exn) : bool :=
  match e with SendMailException => true | _ => false end.
Definition is_Exception (e : exn) : bool := true.

Definition get_world : M World := λ w, (Ok w, w).
Definition modify (f : World → World) : M () := λ w, (Ok (), f w).

(** [with transaction.atomic(): body].  The changes of [body] to the
    database are kept when the block is left normally and the commit
    succeeds; they are undone when the block is left by an exception, which
    is raised again, or when the commit fails.  Nothing else is restored. *)
Definition atomic (commit_fault : nat → bool) {A} (body : M A) : M A :=
  λ w, match body w with
       | (Ok a, w') =>
           if commit_fault (ticks w')
           then (Raise DatabaseError, tick (set_db (db w) w'))
           else (Ok a, tick w')
       | (Raise e, w') => (Raise e, set_db (db w) w')
       end.

(** *** The session dictionary *)

Definition session_contains (k : string) : M bool :=
  w ← get_world; ret (bool_decide (is_Some (session w !! k))).

Definition session_getitem (k : string) : M pyval :=
  w ← get_world;
  match session w !! k with
  | Some v => ret v
  | None => raise (KeyError k)
  end.

Definition session_get (k : string) (dflt : pyval) : M pyval :=
  w ← get_world; ret (default dflt (session w !! k)).

Definition session_setitem (k : string) (v : pyval) : M () :=
  modify (set_session (insert k v)).

Definition session_delitem (k : string) : M () :=
  w ← get_world;
  match session w !! k with
  | Some _ => modify (set_session (delete k))
  | None => raise (KeyError k)
  end.

Definition session_pop (k : string) : M pyval :=
  v ← session_getitem k;
  modify (set_session (delete k));;
  ret v.

(** *** [django.contrib.messages] *)

Definition messages_error (text : string) : M () :=
  modify (add_message (LevelError, text)).
Definition messages_success (text : string) : M () :=
  modify (add_message (LevelSuccess, text)).

(** [QueryDict.get(key, default)] and [key in QueryDict]. *)
Definition qd_get (q : gmap string string) (k : string) (dflt : string) : string :=
  default dflt (q !! k).
Definition qd_contains (q : gmap string string) (k : string) : bool :=
  bool_decide (is_Some (q !! k)).

(** Lifting a [Result] into the monad. *)
Definition lift_result {A} (r : Result A) : M A :=
  match r with
  | Ok a => ret a
  | Raise e => raise e
  end.

(** [a < b] on clock readings. *)
Definition Qlt_bool (a b : Q) : bool := negb (Qle_bool b a).

(** The value of a primary-key filter: [None] selects no row, anything else
    is converted with [int]. *)
Definition prep_pk (v : pyval) : Result (option Z) :=
  match v with
  | PyNone => Ok None
  | _ => match Py.int v with
         | Ok z => Ok (Some z)
         | Raise e => Raise e
         end
  end.

(** The user with a given address (addresses are unique). *)
Definition user_by_email (d : DB) (e : string) : option User :=
  snd <$> List.find (λ p : Z * User, String.eqb (email p.2) e) (map_to_list (users d)).

Definition email_taken (d : DB) (e : string) : bool :=
  bool_decide (is_Some (user_by_email d e)).

(** The writes the views make to storage. *)
Definition db_put_user (u : User) (d : DB) : DB :=
  mkDB (<[pk u := u]> (users d)) (users_seq d) (members d) (invites d)
       (logentries d) (u2fdevices d).
Definition db_new_user (u : User) (d : DB) : DB :=
  mkDB (<[pk u := u]> (users d)) (users_seq d + 1) (members d) (invites d)
       (logentries d) (u2fdevices d).
Definition db_add_member (t : Team) (u : User) (d : DB) : DB :=
  mkDB (users d) (users_seq d) ({[ (team_pk t, pk u) ]} ∪ members d) (invites d)
       (logentries d) (u2fdevices d).
Definition db_delete_invite (i : TeamInvite) (d : DB) : DB :=
  mkDB (users d) (users_seq d) (members d) (delete (inv_token i) (invites d))
       (logentries d) (u2fdevices d).
Definition db_add_log (l : LogEntry) (d : DB) : DB :=
  mkDB (users d) (users_seq d) (members d) (invites d)
       (logentries d ++ [l]) (u2fdevices d).

Section Views.

Variable X : Externals.

(** ** Primitive operations of the collaborators *)

(** [time.time()]. *)
Definition time_time : M Q :=
  w ← get_world; modify tick;; ret (clock X (ticks w)).

(** A single write to the database: it either fails, leaving the database
    as it was, or applies [f]. *)
Definition db_write (f : DB → DB) : M () :=
  w ← get_world;
  modify tick;;
  if db_fault X (ticks w) then raise DatabaseError
  else modify (λ w', set_db (f (db w')) w').

(** [User.objects.get(pk=v)], with [is_active=True] when [only_active]. *)
Definition User_objects_get (v : pyval) (only_active : bool) : M User :=
  key ← lift_result (prep_pk v);
  w ← get_world;
  match key ≫= (λ z, users (db w) !! z) with
  | Some u => if only_active && negb (is_active u) then raise DoesNotExist else ret u
  | None => raise DoesNotExist
  end.

(** Modelled from the spec: [User.objects.create_user(email, password,
    locale=..., timezone=...)] of the user manager in [pretix.base.models]:
    the address is unique, the key comes from the sequence, the account is
    active and has no second factor. *)
Definition create_user (e pw loc tz : string) : M User :=
  w ← get_world;
  modify tick;;
  if db_fault X (ticks w) then raise DatabaseError
  else if email_taken (db w) e then raise IntegrityError
  else
    let u := mkUser (users_seq (db w)) e (make_password X pw) true false loc tz in
    modify (set_db (db_new_user u (db w)));;
    ret u.

(** [authenticate(email=..., password=...)]. *)
Definition authenticate (e pw : string) : M (option User) :=
  w ← get_world;
  ret (match user_by_email (db w) e with
        | Some u => if check_password X pw (password u) && is_active u
                    then Some u else None
        | None => None
        end).

(** Modelled from the spec: [obj.log_action(action, data=..., user=...)] of
    [pretix.base.models] appends one entry to the action log. *)
Definition log_action (o : LogObject) (action : string) (u : option Z)
    (data : list (string * pyval)) : M () :=
  db_write (db_add_log (mkLog o action u data)).

(** The queries on the models: [team.members.filter(pk=...).exists()],
    [team.members.add(user)], [invite.delete()] and
    [TeamInvite.objects.get(token=...)]. *)
Definition members_exists (t : Team) (u : User) : M bool :=
  w ← get_world; ret (bool_decide ((team_pk t, pk u) ∈ members (db w))).
Definition members_add (t : Team) (u : User) : M () :=
  db_write (db_add_member t u).
Definition invite_delete (i : TeamInvite) : M () :=
  db_write (db_delete_invite i).
Definition TeamInvite_objects_get (token : string) : M TeamInvite :=
  w ← get_world;
  match invites (db w) !! token with
  | Some i => ret i
  | None => raise DoesNotExist
  end.

(** [user.set_password(raw)] followed by [user.save()]. *)
Definition set_password_and_save (u : User) (raw : string) : M () :=
  db_write (db_put_user
    (mkUser (pk u) (email u) (make_password X raw) (is_active u) (require_2fa u)
            (locale u) (timezone u))).

(** [[DeviceRegistration.wrap(device.json_data) for device in
    U2FDevice.objects.filter(confirmed=True, user=u)]]. *)
Definition confirmed_devices (u : User) : M (list string) :=
  w ← get_world;
  ret (u2f_json_data <$>
          filter (λ d, u2f_confirmed d = true ∧ u2f_user d = pk u) (u2fdevices (db w))).

(** The Redis connection: [rc.exists(key)] and [rc.setex(key, ttl, value)].
    A record exists until its expiry instant. *)
Definition redis_exists (k : string) : M bool :=
  w ← get_world;
  modify tick;;
  ret (match redis w !! k with
        | Some (_, expiry) => Qlt_bool (clock X (ticks w)) expiry
        | None => false
        end).
Definition redis_setex (k : string) (ttl : Z) (v : string) : M () :=
  w ← get_world;
  modify tick;;
  modify (set_redis (<[k := (v, (clock X (ticks w) + inject_Z ttl)%Q)]> (redis w))).

(** Modelled from the spec: [pretix.base.services.mail.mail] hands the
    mail over or fails with [SendMailException]. *)
Definition mail (m : Mail) : M () :=
  w ← get_world;
  modify tick;;
  if mail_fault X (ticks w) then raise SendMailException
  else modify (add_mail m).

(** [auth_login(request, user)] and [auth_logout(request)]. *)
Definition auth_login (u : User) : M () :=
  modify (λ w, set_user (Some u) (set_session (λ s, session_login X s u) w)).
Definition auth_logout : M () :=
  modify (λ w, set_user None (set_session (session_logout X) w)).

Definition is_authenticated : M bool :=
  w ← get_world; ret (bool_decide (is_Some (user w))).

(** [django_otp.match_token] and [u2f.verify_authenticate]; the latter
    returns nothing and raises when the response does not verify. *)
Definition otp_match_token (u : User) (token : string) : M bool :=
  modify (add_event (EvMatchToken (pk u) token));;
  ret (match_token X u token).
Definition u2f_verify_authenticate (devices : list string) (challenge : pyval)
    (token : string) (app_ids : list string) : M () :=
  modify (add_event (EvVerifyAuthenticate devices challenge token app_ids));;
  if verify_authenticate X devices challenge token app_ids then ret ()
  else raise ValueError.

(** [u2f.start_authenticate(devices, challenge=rand_bytes(32)).json]. *)
Definition u2f_start_authenticate (devices : list string) : M string :=
  w ← get_world;
  modify tick;;
  let challenge := rand_bytes X (ticks w) in
  modify (add_event (EvStartAuthenticate devices challenge));;
  ret (start_authenticate X devices challenge).

(** Method dispatch of [django.views.generic.View] for a view class that
    defines [get] and [post]; [head] falls back to [get]. *)
Definition View_dispatch (request : Request) (get post : M HttpResponse) : M HttpResponse :=
  match method request with
  | GET | HEAD => get
  | POST => post
  | OPTIONS => ret OptionsResponse
  | OtherMethod => ret NotAllowed
  end.

Definition dquote : string := String (ascii_of_nat 34) EmptyString.

Definition opt_str (o : option string) : pyval :=
  match o with
  | Some s => PyStr s
  | None => PyNone
  end.

(** ** [login] and [logout] *)

Definition login (request : Request) : M HttpResponse :=
  let render_form (bound : bool) : M HttpResponse :=
    ret (Render "pretixcontrol/auth/login.html"
            [("form", CForm bound);
             ("can_register", CBool (PRETIX_REGISTRATION (settings X)));
             ("can_reset", CBool (PRETIX_PASSWORD_RESET (settings X)))]) in
  authd ← is_authenticated;
  if authd then ret (Redirect (qd_get (req_GET request) "next" "control:index"))
  else if decide (method request = POST) then
    w ← get_world;
    match LoginForm X (db w) (req_POST request) with
    | Some form =>
        match user_cache form with
        | Some u =>
            session_setitem "pretix_auth_long_session"
              (PyBool (PRETIX_LONG_SESSIONS (settings X) && login_keep_logged_in form));;
            if require_2fa u then
              session_setitem "pretix_auth_2fa_user" (PyInt (pk u));;
              now ← time_time;
              session_setitem "pretix_auth_2fa_time"
                (PyStr (Py.str_of_int (Py.int_of_float now)));;
              let twofa_url := reverse X "control:auth.login.2fa" in
              ret (Redirect
                (if qd_contains (req_GET request) "next"
                 then twofa_url +:+ "?next=" +:+ quote X (qd_get (req_GET request) "next" "")
                 else twofa_url))
            else
              auth_login u;;
              now ← time_time;
              session_setitem "pretix_auth_login_time" (PyInt (Py.int_of_float now));;
              if qd_contains (req_GET request) "next"
                 && is_safe_url X (qd_get (req_GET request) "next" "")
              then ret (Redirect (qd_get (req_GET request) "next" ""))
              else ret (Redirect (reverse X "control:index"))
        | None => render_form true
        end
    | None => render_form true
    end
  else render_form false.

Definition logout (request : Request) : M HttpResponse :=
  auth_logout;;
  session_setitem "pretix_auth_login_time" (PyInt 0);;
  ret (Redirect "control:auth.login").

(** ** [register] and [invite] *)

(** The account-creation lines that [register] (90-101) and [invite]
    (144-155) share: create the user, authenticate it, log the creation,
    log in and stamp the session. *)
Definition create_and_login (request : Request) (form : RegistrationData) : M User :=
  created ← create_user (reg_email form) (reg_password form) (LANGUAGE_CODE request)
              (default (TIME_ZONE (settings X)) (req_timezone request));
  found ← authenticate (email created) (reg_password form);
  match found with
  | None => raise AttributeError
  | Some u =>
      log_action (OnUser (pk u)) "pretix.control.auth.user.created" (Some (pk u)) [];;
      auth_login u;;
      now ← time_time;
      session_setitem "pretix_auth_login_time" (PyInt (Py.int_of_float now));;
      session_setitem "pretix_auth_long_session"
        (PyBool (PRETIX_LONG_SESSIONS (settings X) && reg_keep_logged_in form));;
      ret u
  end.

Definition register (request : Request) : M HttpResponse :=
  if negb (PRETIX_REGISTRATION (settings X))
  then raise (PermissionDenied "Registration is disabled")
  else
    let render_form (bound : bool) : M HttpResponse :=
      ret (Render "pretixcontrol/auth/register.html" [("form", CForm bound)]) in
    authd ← is_authenticated;
    if authd then ret (Redirect (qd_get (req_GET request) "next" "control:index"))
    else if decide (method request = POST) then
      w ← get_world;
      match RegistrationForm X (db w) (req_POST request) with
      | Some form =>
          create_and_login request form;;
          ret (Redirect "control:index")
      | None => render_form true
      end
    else render_form false.

(** The body of both [with transaction.atomic():] blocks of [invite]. *)
Definition join_team (inv : TeamInvite) (u : User) : M () :=
  atomic (db_fault X)
    (members_add (inv_team inv) u;;
     log_action (OnTeam (team_pk (inv_team inv))) "pretix.team.member.joined" None
       [("email", PyStr (email u));
        ("invite_email", PyStr (inv_email inv));
        ("user", PyInt (pk u))];;
     invite_delete inv).

Definition invite (request : Request) (token : string) : M HttpResponse :=
  looked_up ← try_except (i ← TeamInvite_objects_get token; ret (Some i))
                 is_DoesNotExist (ret None);
  match looked_up with
  | None =>
      messages_error
        ("You used an invalid link. Please copy the link from your email to the "
         +:+ "address bar and make sure it is correct and that the link has not been "
         +:+ "used before.");;
      ret (Redirect "control:auth.login")
  | Some inv =>
      w ← get_world;
      match user w with
      | Some u =>
          already ← members_exists (inv_team inv) u;
          if already then
            messages_error ("You cannot accept the invitation for " +:+ dquote
                            +:+ team_name (inv_team inv) +:+ dquote
                            +:+ " as you already are part of this team.");;
            ret (Redirect "control:index")
          else
            join_team inv u;;
            messages_success ("You are now part of the team " +:+ dquote
                              +:+ team_name (inv_team inv) +:+ dquote +:+ ".");;
            ret (Redirect "control:index")
      | None =>
          let render_form (bound : bool) : M HttpResponse :=
            ret (Render "pretixcontrol/auth/invite.html" [("form", CForm bound)]) in
          if decide (method request = POST) then
            match RegistrationForm X (db w) (req_POST request) with
            | Some form =>
                u ← create_and_login request form;
                join_team inv u;;
                messages_success ("Welcome to pretix! You are now part of the team " +:+ dquote
                                  +:+ team_name (inv_team inv) +:+ dquote +:+ ".");;
                ret (Redirect "control:index")
            | None => render_form true
            end
          else render_form false
      end
  end.

(** ** [Forgot]: requesting a password reset *)

Definition Forgot_render (request : Request) : M HttpResponse :=
  ret (Render "pretixcontrol/auth/forgot.html"
         [("form", CForm (bool_decide (method request = POST)))]).

Definition Forgot_get (request : Request) : M HttpResponse :=
  authd ← is_authenticated;
  if authd then ret (Redirect (qd_get (req_GET request) "next" "control:index"))
  else Forgot_render request.

Definition Forgot_post (request : Request) : M HttpResponse :=
  w ← get_world;
  match PasswordForgotForm X (db w) (req_POST request) with
  | Some u =>
      (* [Some] is the early return of the cooldown branch *)
      denied ←
        (if HAS_REDIS (settings X) then
           let key := "pretix_pwreset_" +:+ Py.str_of_int (pk u) in
           repeated ← redis_exists key;
           if repeated then
             log_action (OnUser (pk u))
               "pretix.control.auth.user.forgot_password.denied.repeated" None [];;
             messages_error "We already sent you an email in the last 24 hours.";;
             ret (Some (Redirect "control:auth.forgot"))
           else
             redis_setex key (3600 * 24) "1";;
             ret None
         else ret None);
      match denied with
      | Some response => ret response
      | None =>
          sent ← try_except
                   (mail (mkMail (email u) "Password recovery" "pretixcontrol/email/forgot.txt"
                            (build_absolute_uri X "control:auth.forgot.recover"
                             +:+ "?id=" +:+ Py.str_of_int (pk u)
                             +:+ "&token=" +:+ make_token X u)
                            (locale u));;
                    ret true)
                   is_SendMailException
                   (ret false);
          if sent then
            log_action (OnUser (pk u))
              "pretix.control.auth.user.forgot_password.mail_sent" None [];;
            messages_success "We sent you an e-mail containing further instructions.";;
            ret (Redirect "control:auth.forgot")
          else
            messages_error "There was an error sending the mail. Please try again later.";;
            Forgot_get request
      end
  | None => Forgot_get request
  end.

Definition Forgot_dispatch (request : Request) : M HttpResponse :=
  if negb (PRETIX_PASSWORD_RESET (settings X))
  then raise (PermissionDenied "Password reset is disabled")
  else View_dispatch request (Forgot_get request) (Forgot_post request).

(** ** [Recover]: confirming a password reset *)

Definition Recover_error_messages : gmap string string :=
  {[ "invalid" :=
       "You clicked on an invalid link. Please check that you copied the full "
       +:+ "web address into your address bar. Please note that the link is only valid "
       +:+ "for three days and that the link can only be used once.";
     "unknownuser" :=
       "We were unable to find the user you requested a new password for." ]}.

Definition Recover_invalid (msg : string) : M HttpResponse :=
  match Recover_error_messages !! msg with
  | Some text =>
      messages_error text;;
      ret (Redirect "control:auth.forgot")
  | None => raise (KeyError msg)
  end.

(** The lookup that [Recover.get] and [Recover.post] both start with:
    the user of the [id] parameter, then the check of the [token]
    parameter.  A response on the left means the view returns it. *)
Definition Recover_check (request : Request) : M (HttpResponse + User) :=
  found ← try_except
            (u ← User_objects_get (opt_str (req_GET request !! "id")) false; ret (Some u))
            is_DoesNotExist
            (ret None);
  match found with
  | None => r ← Recover_invalid "unknownuser"; ret (inl r)
  | Some u =>
      if negb (check_token X u (req_GET request !! "token"))
      then r ← Recover_invalid "invalid"; ret (inl r)
      else ret (inr u)
  end.

Definition Recover_get (request : Request) : M HttpResponse :=
  authd ← is_authenticated;
  if authd then ret (Redirect (qd_get (req_GET request) "next" "control:index"))
  else
    checked ← Recover_check request;
    match checked with
    | inl response => ret response
    | inr _ =>
        ret (Render "pretixcontrol/auth/recover.html"
               [("form", CForm (bool_decide (method request = POST)))])
    end.

Definition Recover_post (request : Request) : M HttpResponse :=
  w ← get_world;
  match PasswordRecoverForm X (db w) (req_POST request) (req_GET request !! "id") with
  | Some new_password =>
      checked ← Recover_check request;
      match checked with
      | inl response => ret response
      | inr u =>
          set_password_and_save u new_password;;
          messages_success "You can now login using your new password.";;
          log_action (OnUser (pk u)) "pretix.control.auth.user.forgot_password.recovered" None [];;
          ret (Redirect "control:auth.login")
      end
  | None => Recover_get request
  end.

Definition Recover_dispatch (request : Request) : M HttpResponse :=
  if negb (PRETIX_PASSWORD_RESET (settings X))
  then raise (PermissionDenied "Password reset is disabled")
  else View_dispatch request (Recover_get request) (Recover_post request).

(** ** [Login2FAView]: the second-factor step *)

Definition get_u2f_appid (request : Request) : string :=
  (if is_secure request then "https" else "http") +:+ "://" +:+ get_host request.

Definition Login2FAView_get_context_data (request : Request) (self_user : User)
    : M (list (string * ctxval)) :=
  devices ← confirmed_devices self_user;
  match devices with
  | _ :: _ =>
      json ← u2f_start_authenticate devices;
      session_setitem "_u2f_challenge" (PyStr json);;
      ret [("jsondata", CJson (Some json))]
  | [] =>
      has ← session_contains "_u2f_challenge";
      (if has then session_delitem "_u2f_challenge" else ret ());;
      ret [("jsondata", CJson None)]
  end.

Definition Login2FAView_get (request : Request) (self_user : User) : M HttpResponse :=
  ctx ← Login2FAView_get_context_data request self_user;
  ret (Render "pretixcontrol/auth/login_2fa.html" ctx).

(** Lines 318-331 of [post]: the submitted token and its verification. *)
Definition Login2FAView_post_verify (request : Request) (self_user : User) : M bool :=
  let token := Py.remove_spaces (Py.strip (qd_get (req_POST request) "token" "")) in
  has ← session_contains "_u2f_challenge";
  if has && Py.startswith_char "{" token then
    devices ← confirmed_devices self_user;
    challenge ← session_pop "_u2f_challenge";
    try_except
      (u2f_verify_authenticate devices challenge token [get_u2f_appid request];;
       ret true)
      is_Exception
      (ret false)
  else otp_match_token self_user token.

Definition Login2FAView_post (request : Request) (self_user : User) : M HttpResponse :=
  valid ← Login2FAView_post_verify request self_user;
  if valid then
    auth_login self_user;;
    now ← time_time;
    session_setitem "pretix_auth_login_time" (PyInt (Py.int_of_float now));;
    session_delitem "pretix_auth_2fa_user";;
    session_delitem "pretix_auth_2fa_time";;
    if qd_contains (req_GET request) "next"
       && is_safe_url X (qd_get (req_GET request) "next" "")
    then ret (Redirect (qd_get (req_GET request) "next" ""))
    else ret (Redirect (reverse X "control:index"))
  else
    messages_error "Invalid code, please try again.";;
    ret (Redirect "control:auth.login.2fa").

(** [dispatch]: the guard in front of [get] and [post].  [self_user] is the
    attribute [self.user], set only when the lookup succeeds. *)
Definition Login2FAView_dispatch (request : Request) : M HttpResponse :=
  has ← session_contains "pretix_auth_2fa_user";
  looked_up ←
    (if negb has then ret (true, None)
     else try_except
            (v ← session_getitem "pretix_auth_2fa_user";
             u ← User_objects_get v true;
             ret (false, Some u))
            is_DoesNotExist
            (ret (true, None)));
  let '(fail, self_user) := looked_up in
  raw ← session_get "pretix_auth_2fa_time" (PyStr "1");
  logintime ← lift_result (Py.int raw);
  now ← time_time;
  let fail := if Qlt_bool 300 (now - inject_Z logintime) then true else fail in
  if fail then
    messages_error "Please try again.";;
    ret (Redirect "control:auth.login")
  else
    match self_user with
    | Some u => View_dispatch request (Login2FAView_get request u) (Login2FAView_post request u)
    | None => raise AttributeError
    end.

End Views.

(** ** A concrete deployment, used to run the views *)

Module Demo.

Definition alice : User :=
  mkUser 7 "alice@example.org" "hash:wonderland" true true "en" "UTC".
Definition bob : User :=
  mkUser 8 "bob@example.org" "hash:builder" true false "en" "UTC".
Definition carol : User :=
  mkUser 9 "carol@example.org" "hash:singer" false true "en" "UTC".

Definition crew : Team := mkTeam 3 "Crew".
Definition crew_invite : TeamInvite := mkInvite crew "dave@example.org" "t0k3n".

Definition database : DB :=
  mkDB {[ 7 := alice; 8 := bob; 9 := carol ]} 10 ∅ {[ "t0k3n" := crew_invite ]} []
       [mkU2F 7 true "{key-a}"].

Definition sett : Settings := mkSettings true true true true "UTC".

Definition login_form (d : DB) (post : gmap string string) : option LoginData :=
  match post !! "email", post !! "password" with
  | Some e, Some p =>
      match user_by_email d e with
      | Some u => if String.eqb ("hash:" +:+ p) (password u)
                  then Some (mkLoginData (Some u)
                               (bool_decide (is_Some (post !! "keep_logged_in"))))
                  else None
      | None => None
      end
  | _, _ => None
  end.

Definition registration_form (d : DB) (post : gmap string string) : option RegistrationData :=
  match post !! "email", post !! "password" with
  | Some e, Some p =>
      if email_taken d e then None
      else Some (mkRegData e p (bool_decide (is_Some (post !! "keep_logged_in"))))
  | _, _ => None
  end.

Definition forgot_form (d : DB) (post : gmap string string) : option User :=
  post !! "email" ≫= user_by_email d.

Definition recover_form (d : DB) (post : gmap string string) (user_id : option string)
    : option string :=
  post !! "password".

(** The clock starts at 1 000 000 s and advances by one second per
    interaction; no write and no mail fails. *)
Definition ext : Externals :=
  mkExternals sett
    (λ n, inject_Z (1000000 + Z.of_nat n))
    (λ _, false)
    (λ _, false)
    (λ n, "rnd" +:+ Py.str_of_int (Z.of_nat n))
    (λ s u, <["_auth_user_id" := PyStr (Py.str_of_int (pk u))]> s)
    (λ _, ∅)
    (λ raw, "hash:" +:+ raw)
    (λ raw hashed, String.eqb ("hash:" +:+ raw) hashed)
    (λ u, "tok:" +:+ password u)
    (λ u t, bool_decide (t = Some ("tok:" +:+ password u)))
    (λ name, "/" +:+ name)
    (λ name, "https://pretix.example/" +:+ name)
    (λ url, Py.startswith_char "/" url)
    (λ s, s)
    (λ u t, String.eqb t "123456")
    (λ devices challenge t app_ids, String.eqb t "{signed}")
    (λ devices challenge, "{" +:+ challenge +:+ "}")
    login_form registration_form forgot_form recover_form.

(** The same deployment in which the [n]-th write to storage fails. *)
Definition ext_failing_write (n : nat) : Externals :=
  mkExternals sett (clock ext) (λ k, bool_decide (k = n)) (mail_fault ext) (rand_bytes ext)
    (session_login ext) (session_logout ext) (make_password ext) (check_password ext)
    (make_token ext) (check_token ext) (reverse ext) (build_absolute_uri ext)
    (is_safe_url ext) (quote ext) (match_token ext) (verify_authenticate ext)
    (start_authenticate ext) login_form registration_form forgot_form recover_form.

(** The same deployment with registration switched off and without Redis. *)
Definition ext_minimal : Externals :=
  mkExternals (mkSettings false true true false "UTC")
    (clock ext) (db_fault ext) (mail_fault ext) (rand_bytes ext)
    (session_login ext) (session_logout ext) (make_password ext) (check_password ext)
    (make_token ext) (check_token ext) (reverse ext) (build_absolute_uri ext)
    (is_safe_url ext) (quote ext) (match_token ext) (verify_authenticate ext)
    (start_authenticate ext) login_form registration_form forgot_form recover_form.

Definition anonymous : World := mkWorld ∅ None [] database ∅ [] [] 0.

Definition request (m : Method) (get post : gmap string string) : Request :=
  mkRequest m get post true "pretix.example" "en" None.

(** Alice has passed the password step at 1 000 000 s; [pending n] is her
    session [n] interactions later. *)
Definition pending_session : gmap string pyval :=
  {[ "pretix_auth_long_session" := PyBool true;
     "pretix_auth_2fa_user" := PyInt 7;
     "pretix_auth_2fa_time" := PyStr "1000000" ]}.
Definition pending (n : nat) : World := mkWorld pending_session None [] database ∅ [] [] n.

(** The same with a hardware challenge in flight. *)
Definition challenged (n : nat) : World :=
  mkWorld (<["_u2f_challenge" := PyStr "{rnd2}"]> pending_session) None [] database ∅ [] [] n.

(** Carol, whose account is inactive, with a pending session. *)
Definition pending_carol (n : nat) : World :=
  mkWorld (<["pretix_auth_2fa_user" := PyInt 9]> pending_session) None [] database ∅ [] [] n.

(** A pending session that lost its start instant. *)
Definition untimed (n : nat) : World :=
  mkWorld (delete "pretix_auth_2fa_time" pending_session) None [] database ∅ [] [] n.



End Demo.

(** * Vocabulary of the properties *)

(** ** The guard of the second-factor endpoint *)

(** Shape of the two pending entries of a session: the identifier can be
    used as a primary key and the start instant can be read as an
    integer. *)
Definition pending_id_ok (s : gmap string pyval) : Prop :=
  ∀ v, s !! "pretix_auth_2fa_user" = Some v → ∃ key, prep_pk v = Ok key.
Definition pending_time_ok (s : gmap string pyval) : Prop :=
  ∀ v, s !! "pretix_auth_2fa_time" = Some v → ∃ t, Py.int v = Ok t.

(** The three conditions under which the guard turns a request away. *)
Definition pending_id_missing (w : World) : Prop :=
  session w !! "pretix_auth_2fa_user" = None.

Definition pending_user_inactive (w : World) : Prop :=
  ∃ v key, session w !! "pretix_auth_2fa_user" = Some v ∧ prep_pk v = Ok key ∧
    match key ≫= (λ z, users (db w) !! z) with
    | Some u => is_active u = false
    | None => True
    end.

Definition pending_expired (X : Externals) (w : World) : Prop :=
  ∃ v t, session w !! "pretix_auth_2fa_time" = Some v ∧ Py.int v = Ok t ∧
    (300 < clock X (ticks w) - inject_Z t)%Q.

(** The rejection: the generic error and the redirect to the login entry
    point, after one clock reading; nothing else changes. *)
Definition rejected (w : World) : Result HttpResponse * World :=
  (Ok (Redirect "control:auth.login"),
   add_message (LevelError, "Please try again.") (tick w)).

(** What the guard finds: the active user the pending identifier denotes,
    and the start instant it compares the clock with. *)
Definition pending_principal (w : World) : Result (option User) :=
  match session w !! "pretix_auth_2fa_user" with
  | None => Ok None
  | Some v =>
      match prep_pk v with
      | Raise e => Raise e
      | Ok key =>
          Ok (match key ≫= (λ z, users (db w) !! z) with
              | Some u => if is_active u then Some u else None
              | None => None
              end)
      end
  end.

Definition pending_since (w : World) : Result Z :=
  Py.int (default (PyStr "1") (session w !! "pretix_auth_2fa_time")).

(** ** The second-factor submission *)

(** The token as [post] reads it: stripped, blanks removed. *)
Definition submitted_token (request : Request) : string :=
  Py.remove_spaces (Py.strip (qd_get (req_POST request) "token" "")).

(** The confirmed hardware registrations of a user. *)
Definition devices_of (d : DB) (u : User) : list string :=
  u2f_json_data <$>
    filter (λ dev, u2f_confirmed dev = true ∧ u2f_user dev = pk u) (u2fdevices d).

(** Where a successful submission is sent. *)
Definition after_login (X : Externals) (request : Request) : string :=
  if qd_contains (req_GET request) "next"
     && is_safe_url X (qd_get (req_GET request) "next" "")
  then qd_get (req_GET request) "next" ""
  else reverse X "control:index".

(** The session after a valid second factor, from the session [s] the
    verification step left. *)
Definition elevated_session (X : Externals) (u : User) (now : Q) (s : gmap string pyval)
    : gmap string pyval :=
  delete "pretix_auth_2fa_time"
    (delete "pretix_auth_2fa_user"
       (<["pretix_auth_login_time" := PyInt (Py.int_of_float now)]> (session_login X s u))).


(** The session is pending for [u] and inside the elevation window. *)
Definition within_window (X : Externals) (w : World) (u : User) : Prop :=
  pending_principal w = Ok (Some u) ∧
  ∃ v t, session w !! "pretix_auth_2fa_time" = Some v ∧ Py.int v = Ok t ∧
    (clock X (ticks w) - inject_Z t <= 300)%Q.

(** Django's [login] leaves the entry [k] of the session [s] alone. *)
Definition login_keeps (X : Externals) (s : gmap string pyval) (u : User) (k : string) : Prop :=
  session_login X s u !! k = s !! k.

(** ** Confirming a password reset *)



(** The user the [id] parameter of the request denotes. *)
Definition reset_user (request : Request) (w : World) : Result (option User) :=
  match prep_pk (opt_str (req_GET request !! "id")) with
  | Raise e => Raise e
  | Ok key => Ok (key ≫= (λ z, users (db w) !! z))
  end.



(** ** Accepting an invite *)

(** The log entry of a join. *)
Definition joined_entry (inv : TeamInvite) (u : User) : LogEntry :=
  mkLog (OnTeam (team_pk (inv_team inv))) "pretix.team.member.joined" None
    [("email", PyStr (email u));
     ("invite_email", PyStr (inv_email inv));
     ("user", PyInt (pk u))].

(** What can be seen of an acceptance of [inv] by [u] that went through,
    in the answer and the database [out] of the request, against the
    database [before] the transaction: the redirect to the index page, [u]
    among the members of the team, the join entry at the end of the log,
    no invite under the token of [inv], and nothing else changed among
    members, invites and users. *)
Definition acceptance_committed (inv : TeamInvite) (u : User) (before : DB)
    (out : Result HttpResponse * World) : Prop :=
  out.1 = Ok (Redirect "control:index") ∧
  (team_pk (inv_team inv), pk u) ∈ members (db out.2) ∧
  (∀ p, p ∈ members (db out.2) ↔
        p = (team_pk (inv_team inv), pk u) ∨ p ∈ members before) ∧
  logentries (db out.2) = (logentries before ++ [joined_entry inv u])%list ∧
  invites (db out.2) !! inv_token inv = None ∧
  (∀ k, k ≠ inv_token inv → invites (db out.2) !! k = invites before !! k) ∧
  users (db out.2) = users before.

(** What can be seen of one that failed: the database error, and the
    database as it was before the transaction. *)
Definition acceptance_rolled_back (before : DB) (out : Result HttpResponse * World)
    : Prop :=
  out.1 = Raise DatabaseError ∧ db out.2 = before.

(** The database after the three steps of an acceptance. *)
Definition joined (inv : TeamInvite) (u : User) (d : DB) : DB :=
  db_delete_invite inv (db_add_log (joined_entry inv u) (db_add_member (inv_team inv) u d)).

(** The world [k] interactions later, nothing else changed. *)
Definition later (k : nat) (w : World) : World := Nat.iter k tick w.

(** The account [create_user] makes for a valid registration form. *)
Definition new_user (X : Externals) (request : Request) (form : RegistrationData) (d : DB)
    : User :=
  mkUser (users_seq d) (reg_email form) (make_password X (reg_password form)) true false
    (LANGUAGE_CODE request) (default (TIME_ZONE (settings X)) (req_timezone request)).

Definition created_entry (u : User) : LogEntry :=
  mkLog (OnUser (pk u)) "pretix.control.auth.user.created" (Some (pk u)) [].

(** The session of a visitor who has just registered. *)
Definition registered_session (X : Externals) (form : RegistrationData) (u : User) (now : Q)
    (s : gmap string pyval) : gmap string pyval :=
  <["pretix_auth_long_session" :=
      PyBool (PRETIX_LONG_SESSIONS (settings X) && reg_keep_logged_in form)]>
    (<["pretix_auth_login_time" := PyInt (Py.int_of_float now)]> (session_login X s u)).

Definition registered (X : Externals) (request : Request) (form : RegistrationData)
    (w : World) : World :=
  let u := new_user X request form (db w) in
  set_session (registered_session X form u (clock X (S (S (ticks w)))))
    (set_user (Some u)
       (set_db (db_add_log (created_entry u) (db_new_user u (db w))) (later 3 w))).

(** ** Requesting a password reset *)

(** The key of the cooldown record of [u]. *)
Definition cooldown_key (u : User) : string :=
  "pretix_pwreset_" +:+ Py.str_of_int (pk u).

(** A cooldown record for [u] exists at the next look at the store. *)
Definition cooldown_live (X : Externals) (w : World) (u : User) : bool :=
  match redis w !! cooldown_key u with
  | Some (_, expiry) => Qlt_bool (clock X (ticks w)) expiry
  | None => false
  end.

Definition recovery_mail (X : Externals) (u : User) : Mail :=
  mkMail (email u) "Password recovery" "pretixcontrol/email/forgot.txt"
    (build_absolute_uri X "control:auth.forgot.recover"
     +:+ "?id=" +:+ Py.str_of_int (pk u) +:+ "&token=" +:+ make_token X u)
    (locale u).

Definition denied_entry (u : User) : LogEntry :=
  mkLog (OnUser (pk u)) "pretix.control.auth.user.forgot_password.denied.repeated" None [].

Definition sent_entry (u : User) : LogEntry :=
  mkLog (OnUser (pk u)) "pretix.control.auth.user.forgot_password.mail_sent" None [].

(** The hand-over to the mail service and what follows it, started at
    interaction [ticks w]. *)
Definition sending (X : Externals) (request : Request) (u : User) (w : World)
    : Result HttpResponse * World :=
  if mail_fault X (ticks w) then
    Forgot_get request
      (add_message (LevelError, "There was an error sending the mail. Please try again later.")
         (later 1 w))
  else if db_fault X (S (ticks w)) then
    (Raise DatabaseError, add_mail (recovery_mail X u) (later 2 w))
  else
    (Ok (Redirect "control:auth.forgot"),
     add_message (LevelSuccess, "We sent you an e-mail containing further instructions.")
       (set_db (db_add_log (sent_entry u) (db w)) (add_mail (recovery_mail X u) (later 2 w)))).

(** ** Digit strings and the password step *)

Fixpoint string_forall (P : ascii → bool) (s : string) : bool :=
  match s with
  | EmptyString => true
  | String c s' => P c && string_forall P s'
  end.

Definition is_digit (c : ascii) : bool :=
  let n := nat_of_ascii c in (48 <=? n)%nat && (n <=? 57)%nat.

(** The session [login] leaves when the user needs a second factor. *)
Definition session_after_password (X : Externals) (form : LoginData) (u : User) (now : Q)
    (s : gmap string pyval) : gmap string pyval :=
  <["pretix_auth_2fa_time" := PyStr (Py.str_of_int (Py.int_of_float now))]>
    (<["pretix_auth_2fa_user" := PyInt (pk u)]>
       (<["pretix_auth_long_session" :=
            PyBool (PRETIX_LONG_SESSIONS (settings X) && login_keep_logged_in form)]> s)).

Definition twofa_url (X : Externals) (request : Request) : string :=
  if qd_contains (req_GET request) "next"
  then reverse X "control:auth.login.2fa" +:+ "?next="
       +:+ quote X (qd_get (req_GET request) "next" "")
  else reverse X "control:auth.login.2fa".

(** ** The shape of the pending entries as an invariant *)

Definition session_wf (s : gmap string pyval) : Prop :=
  pending_id_ok s ∧ pending_time_ok s.

(** Django's [login] and [logout] keep readable pending entries
    readable. *)
Definition auth_respects_shape (X : Externals) : Prop :=
  (∀ s u, session_wf s → session_wf (session_login X s u)) ∧
  (∀ s, session_wf s → session_wf (session_logout X s)).

(** [m] keeps the property [P] of the session, however it ends. *)
Definition preserves {A} (P : gmap string pyval → Prop) (m : M A) : Prop :=
  ∀ w, P (session w) → P (session (m w).2).

(** One request to one of the endpoints of this module. *)
Inductive Call :=
| CallLogin (request : Request)
| CallLogout (request : Request)
| CallRegister (request : Request)
| CallInvite (request : Request) (token : string)
| CallForgot (request : Request)
| CallRecover (request : Request)
| CallLogin2FA (request : Request).

Definition serve (X : Externals) (c : Call) : M HttpResponse :=
  match c with
  | CallLogin request => login X request
  | CallLogout request => logout X request
  | CallRegister request => register X request
  | CallInvite request token => invite X request token
  | CallForgot request => Forgot_dispatch X request
  | CallRecover request => Recover_dispatch X request
  | CallLogin2FA request => Login2FAView_dispatch X request
  end.

(** The world after a sequence of requests, whatever their outcomes. *)
Definition serve_all (X : Externals) (calls : list Call) (w : World) : World :=
  foldl (λ w' c, (serve X c w').2) w calls.

(** ** What a view leaves alone *)

(** [m] leaves the observation [f] of the world as it was, however it
    ends. *)
Definition keeps {A T} (f : World → T) (m : M A) : Prop :=
  ∀ w, f (m w).2 = f w.

(** The identity of the visitor: the session dictionary and
    [request.user]. *)
Definition identity (w : World) : gmap string pyval * option User :=
  (session w, user w).

(** The mail queue and the cooldown store. *)
Definition mailing (w : World) : list Mail * gmap string (string * Q) :=
  (outbox w, redis w).

(** Everything but the request's own state and the consumed answers of the
    environment: storage, cooldown store, mail queue. *)
Definition stores (w : World) : DB * gmap string (string * Q) * list Mail :=
  (db w, redis w, outbox w).

(** The deployment [X] with the registration flag set to [b]. *)
Definition with_registration (b : bool) (X : Externals) : Externals :=
  mkExternals
    (mkSettings b (PRETIX_PASSWORD_RESET (settings X)) (PRETIX_LONG_SESSIONS (settings X))
       (HAS_REDIS (settings X)) (TIME_ZONE (settings X)))
    (clock X) (db_fault X) (mail_fault X) (rand_bytes X) (session_login X)
    (session_logout X) (make_password X) (check_password X) (make_token X) (check_token X)
    (reverse X) (build_absolute_uri X) (is_safe_url X) (quote X) (match_token X)
    (verify_authenticate X) (start_authenticate X) (LoginForm X) (RegistrationForm X)
    (PasswordForgotForm X) (PasswordRecoverForm X).

(** ** Where a login may lead *)

(** A redirect target a successful login may use: the index page, or the
    [next] parameter when it passes [is_safe_url]. *)
Definition safe_target (X : Externals) (request : Request) (target : string) : Prop :=
  target = reverse X "control:index" ∨
  (req_GET request !! "next" = Some target ∧ is_safe_url X target = true).

(** The session after a password login that needs no second factor. *)
Definition session_after_login (X : Externals) (form : LoginData) (u : User) (now : Q)
    (s : gmap string pyval) : gmap string pyval :=
  <["pretix_auth_login_time" := PyInt (Py.int_of_float now)]>
    (session_login X
       (<["pretix_auth_long_session" :=
            PyBool (PRETIX_LONG_SESSIONS (settings X) && login_keep_logged_in form)]> s) u).

(** ** Invites and password resets *)

Definition invalid_invite_message : string :=
  "You used an invalid link. Please copy the link from your email to the address bar "
  +:+ "and make sure it is correct and that the link has not been used before.".

Definition already_member_message (inv : TeamInvite) : string :=
  "You cannot accept the invitation for " +:+ dquote +:+ team_name (inv_team inv)
  +:+ dquote +:+ " as you already are part of this team.".

(** The user [u] with the password [raw]. *)
Definition with_password (X : Externals) (u : User) (raw : string) : User :=
  mkUser (pk u) (email u) (make_password X raw) (is_active u) (require_2fa u)
    (locale u) (timezone u).

Definition recovered_entry (u : User) : LogEntry :=
  mkLog (OnUser (pk u)) "pretix.control.auth.user.forgot_password.recovered" None [].

(** The deployment [X] with the password-reset flag set to [b]. *)
Definition with_password_reset (b : bool) (X : Externals) : Externals :=
  mkExternals
    (mkSettings (PRETIX_REGISTRATION (settings X)) b (PRETIX_LONG_SESSIONS (settings X))
       (HAS_REDIS (settings X)) (TIME_ZONE (settings X)))
    (clock X) (db_fault X) (mail_fault X) (rand_bytes X) (session_login X)
    (session_logout X) (make_password X) (check_password X) (make_token X) (check_token X)
    (reverse X) (build_absolute_uri X) (is_safe_url X) (quote X) (match_token X)
    (verify_authenticate X) (start_authenticate X) (LoginForm X) (RegistrationForm X)
    (PasswordForgotForm X) (PasswordRecoverForm X).


(** ** The second-factor page *)

(** The challenge [get_context_data] draws and the JSON it stores and
    renders, for the devices [devices], at interaction [n]. *)
Definition issued_challenge (X : Externals) (devices : list string) (n : nat) : string :=
  start_authenticate X devices (rand_bytes X n).

Definition not_blank (c : ascii) : bool := negb (Ascii.eqb c " ").

(** * Properties *)

Arguments Py.int : simpl never.
Arguments Qlt_bool : simpl never.
Arguments prep_pk : simpl never.

(** Symbolic execution of a view: unfold the monad and the primitive
    operations, then rewrite with the known lookups and oracle answers. *)
Ltac run :=
  cbv beta iota zeta delta
    [bind ret raise get_world modify try_except lift_result
     session_contains session_getitem session_get session_setitem session_delitem
     session_pop messages_error messages_success
     time_time db_write User_objects_get create_user authenticate log_action
     members_exists members_add invite_delete TeamInvite_objects_get
     set_password_and_save confirmed_devices redis_exists redis_setex mail
     auth_login auth_logout is_authenticated otp_match_token u2f_verify_authenticate
     u2f_start_authenticate View_dispatch];
  cbn [session user messages db redis outbox trace ticks
       set_session set_user add_message set_db set_redis add_mail add_event tick].

Ltac use_facts :=
  repeat match goal with
         | H : ?l = _ |- context [?l] =>
             lazymatch l with
             | _ !! _ => idtac
             | prep_pk _ => idtac
             | Py.int _ => idtac
             | Qlt_bool _ _ => idtac
             | is_active _ => idtac
             | db_fault _ _ => idtac
             | mail_fault _ _ => idtac
             | _ ≫= _ => idtac
             | user _ => idtac
             | method _ => idtac
             | RegistrationForm _ _ _ => idtac
             | PasswordForgotForm _ _ _ => idtac
             | PasswordRecoverForm _ _ _ _ => idtac
             | HAS_REDIS _ => idtac
             | PRETIX_PASSWORD_RESET _ => idtac
             end;
             rewrite H
         end.

Ltac exec := repeat (progress (run; use_facts; cbn)).

(** ** Conversions *)

Example int_sentinel : Py.int (PyStr "1") = Ok 1.
Proof. reflexivity. Qed.

Example int_padded : Py.int (PyStr " +1_000 ") = Ok 1000.
Proof. reflexivity. Qed.

Example int_garbage : Py.int (PyStr "12a") = Raise ValueError.
Proof. reflexivity. Qed.

Example int_empty : Py.int (PyStr "") = Raise ValueError.
Proof. reflexivity. Qed.

Example str_of_int_neg : Py.str_of_int (-1530) = "-1530".
Proof. reflexivity. Qed.

Example strip_replace : Py.remove_spaces (Py.strip "  12 34 56 ") = "123456".
Proof. reflexivity. Qed.

(** A no-break space is whitespace for [strip] and for [int]; a file
    separator is whitespace for [strip] only. *)
Example strip_no_break_space :
  Py.strip (String (ascii_of_nat 160) "{x}" +:+ String (ascii_of_nat 133) "") = "{x}".
Proof. reflexivity. Qed.

Example int_no_break_space : Py.int (PyStr (String (ascii_of_nat 160) "7")) = Ok 7.
Proof. reflexivity. Qed.

Example strip_file_separator : Py.strip (String (ascii_of_nat 28) "7") = "7".
Proof. reflexivity. Qed.

Example int_file_separator :
  Py.int (PyStr (String (ascii_of_nat 28) "7")) = Raise ValueError.
Proof. reflexivity. Qed.

Lemma Qlt_bool_true a b : Qlt_bool a b = true ↔ (a < b)%Q.
Proof.
  unfold Qlt_bool. rewrite negb_true_iff, <- not_true_iff_false, Qle_bool_iff.
  split; [apply Qnot_le_lt | apply Qlt_not_le].
Qed.

Lemma Qlt_bool_false a b : Qlt_bool a b = false ↔ (b <= a)%Q.
Proof.
  unfold Qlt_bool. rewrite negb_false_iff. apply Qle_bool_iff.
Qed.

Lemma prep_pk_raises v e : prep_pk v = Raise e → is_DoesNotExist e = false.
Proof.
  unfold prep_pk, Py.int. destruct v as [| b | z | s]; try discriminate.
  destruct (Py.int_of_str s); [discriminate|]. by intros [= <-].
Qed.

(** ** [int(str(n))] *)

Lemma digit_facts c :
  is_digit c = true →
  Py.is_int_space c = false ∧ Ascii.eqb c "_" = false ∧ Ascii.eqb c "+" = false
  ∧ Ascii.eqb c "-" = false.
Proof.
  destruct c as [[] [] [] [] [] [] [] []]; vm_compute; intros; try discriminate; done.
Qed.

Lemma string_of_uint_digits d : string_forall is_digit (NilEmpty.string_of_uint d) = true.
Proof. induction d; cbn; done. Qed.

Lemma rstrip_no_space sp s :
  string_forall (λ c, negb (sp c)) s = true → Py.rstrip_chars sp s = s.
Proof.
  induction s as [|c s IH]; [done|]. cbn. intros [Hc Hs]%andb_true_iff.
  rewrite (IH Hs). apply negb_true_iff in Hc. rewrite Hc. by destruct s.
Qed.

Lemma digits_no_space s :
  string_forall is_digit s = true →
  string_forall (λ c, negb (Py.is_int_space c)) s = true.
Proof.
  induction s as [|c s IH]; [done|]. cbn. intros [Hc Hs]%andb_true_iff.
  destruct (digit_facts c Hc) as (-> & _). by rewrite IH.
Qed.

Lemma drop_separators_digits s after_digit :
  string_forall is_digit s = true →
  s ≠ EmptyString ∨ after_digit = true →
  Py.drop_separators after_digit s = Some s.
Proof.
  revert after_digit. induction s as [|c s IH]; intros after_digit Hs Hne.
  - destruct Hne as [?| ->]; done.
  - cbn in *. apply andb_true_iff in Hs as [Hc Hs].
    destruct (digit_facts c Hc) as (_ & -> & _).
    rewrite (IH true) by auto. done.
Qed.

Lemma digits_value_of_uint d :
  d ≠ Decimal.Nil →
  Py.digits_value (NilEmpty.string_of_uint d) = Some (Z.of_uint d).
Proof.
  intros Hd. unfold Py.digits_value.
  rewrite drop_separators_digits.
  - replace (NilEmpty.string_of_uint d) with (NilZero.string_of_uint d) by by destruct d.
    by rewrite NilZero.usu.
  - apply string_of_uint_digits.
  - left. by destruct d.
Qed.

Lemma strip_digits s :
  string_forall is_digit s = true →
  Py.rstrip_chars Py.is_int_space (Py.lstrip_chars Py.is_int_space s) = s.
Proof.
  intros Hs.
  assert (Py.lstrip_chars Py.is_int_space s = s) as ->.
  { destruct s as [|c s]; [done|]. cbn in *. apply andb_true_iff in Hs as [Hc _].
    by destruct (digit_facts c Hc) as (-> & _). }
  by apply rstrip_no_space, digits_no_space.
Qed.

Lemma int_of_str_digits s :
  string_forall is_digit s = true → Py.int_of_str s = Py.digits_value s.
Proof.
  intros Hs. unfold Py.int_of_str. rewrite strip_digits by done.
  destruct s as [|c s]; [done|]. cbn in Hs. apply andb_true_iff in Hs as [Hc _].
  destruct c as [[] [] [] [] [] [] [] []]; try done.
Qed.

Lemma int_of_str_minus s :
  string_forall is_digit s = true →
  Py.int_of_str (String "-" s) = option_map Z.opp (Py.digits_value s).
Proof.
  intros Hs. unfold Py.int_of_str.
  change (Py.lstrip_chars Py.is_int_space (String "-" s)) with (String "-" s).
  rewrite rstrip_no_space; [done|]. cbn. by apply digits_no_space.
Qed.

(** What [login] stores is read back by the guard. *)
Lemma int_str_roundtrip z : Py.int (PyStr (Py.str_of_int z)) = Ok z.
Proof.
  unfold Py.int, Py.str_of_int. destruct z as [|p|p]; [done| |]; cbn.
  - replace (NilZero.string_of_uint (Pos.to_uint p))
      with (NilEmpty.string_of_uint (Pos.to_uint p))
      by (pose proof (Unsigned.to_uint_nonnil p); by destruct (Pos.to_uint p)).
    rewrite int_of_str_digits by apply string_of_uint_digits.
    rewrite digits_value_of_uint by apply Unsigned.to_uint_nonnil.
    unfold Z.of_uint. by rewrite Unsigned.of_to.
  - replace (NilZero.string_of_uint (Pos.to_uint p))
      with (NilEmpty.string_of_uint (Pos.to_uint p))
      by (pose proof (Unsigned.to_uint_nonnil p); by destruct (Pos.to_uint p)).
    rewrite int_of_str_minus by apply string_of_uint_digits.
    rewrite digits_value_of_uint by apply Unsigned.to_uint_nonnil.
    unfold Z.of_uint. by rewrite Unsigned.of_to.
Qed.

(** ** The password step *)

Lemma login_starts_pending X request w form u :
  user w = None →
  method request = POST →
  LoginForm X (db w) (req_POST request) = Some form →
  user_cache form = Some u →
  require_2fa u = true →
  login X request w
  = (Ok (Redirect (twofa_url X request)),
     tick (set_session (session_after_password X form u (clock X (ticks w))) w)).
Proof.
  intros Hanon Hpost Hform Hu H2fa. unfold login, twofa_url, session_after_password. exec.
  case_decide; [|done]. rewrite Hform, Hu. exec. rewrite H2fa. exec. done.
Qed.

(** The pending entries written by [login] have the shape the guard
    reads, and the long-session flag is the one requested at this step. *)
Lemma login_pending_shape X form u now s :
  let s' := session_after_password X form u now s in
  pending_id_ok s' ∧ pending_time_ok s' ∧
  s' !! "pretix_auth_2fa_user" = Some (PyInt (pk u)) ∧
  s' !! "pretix_auth_2fa_time" = Some (PyStr (Py.str_of_int (Py.int_of_float now))) ∧
  s' !! "pretix_auth_long_session"
  = Some (PyBool (PRETIX_LONG_SESSIONS (settings X) && login_keep_logged_in form)).
Proof.
  unfold session_after_password, pending_id_ok, pending_time_ok. cbn.
  rewrite lookup_insert_eq, lookup_insert_ne, lookup_insert_eq by done.
  rewrite !lookup_insert_ne, lookup_insert_eq by done.
  repeat split.
  - intros v [= <-]. by eexists.
  - intros v [= <-]. eexists. apply int_str_roundtrip.
Qed.

(** ** The guard of the second-factor endpoint *)

(** [dispatch] as a decision over what the guard finds. *)
Lemma guard_spec X request w :
  Login2FAView_dispatch X request w =
  match pending_principal w with
  | Raise e => (Raise e, w)
  | Ok p =>
      match pending_since w with
      | Raise e => (Raise e, w)
      | Ok t =>
          match p with
          | Some u =>
              if Qlt_bool 300 (clock X (ticks w) - inject_Z t) then rejected w
              else View_dispatch request (Login2FAView_get X request u)
                     (Login2FAView_post X request u) (tick w)
          | None => rejected w
          end
      end
  end.
Proof.
  unfold Login2FAView_dispatch, pending_principal, pending_since, rejected.
  destruct (session w !! "pretix_auth_2fa_user") as [v|] eqn:Hid.
  - destruct (prep_pk v) as [key|e] eqn:Hkey;
      [|exec; by rewrite (prep_pk_raises _ _ Hkey)].
    destruct (key ≫= λ z, users (db w) !! z) as [u|] eqn:Hu.
    + destruct (is_active u) eqn:Hact; exec;
        destruct (Py.int _); cbn; try reflexivity;
        destruct (Qlt_bool _ _); reflexivity.
    + exec. destruct (Py.int _); cbn; try reflexivity;
        destruct (Qlt_bool _ _); reflexivity.
  - exec. destruct (Py.int _); cbn; try reflexivity;
        destruct (Qlt_bool _ _); reflexivity.
Qed.

(** Under any of the three conditions the guard finds no principal or an
    expired start instant. *)
Lemma guard_condition X w :
  pending_expired X w ∨ pending_id_missing w ∨ pending_user_inactive w →
  (pending_principal w = Ok None ∨ ∃ e, pending_principal w = Raise e) ∨
  (∃ t, pending_since w = Ok t ∧ Qlt_bool 300 (clock X (ticks w) - inject_Z t) = true).
Proof.
  unfold pending_principal, pending_since.
  intros [(v & t & Ht & Hint & Hlate) | [Hnone | (v & key & Hv & Hkey & Hu)]].
  - right. exists t. rewrite Ht. split; [done|]. by apply Qlt_bool_true.
  - left. left. unfold pending_id_missing in Hnone. by rewrite Hnone.
  - left. left. rewrite Hv, Hkey. destruct (key ≫= _); [by rewrite Hu | done].
Qed.

Lemma pending_principal_ok w :
  pending_id_ok (session w) → ∃ p, pending_principal w = Ok p.
Proof.
  unfold pending_id_ok, pending_principal. intros Hok.
  destruct (session w !! "pretix_auth_2fa_user") as [v|]; [|by eexists].
  destruct (Hok v eq_refl) as [key ->]. by eexists.
Qed.

Lemma pending_since_ok w :
  pending_time_ok (session w) → ∃ t, pending_since w = Ok t.
Proof.
  unfold pending_time_ok, pending_since. intros Hok.
  destruct (session w !! "pretix_auth_2fa_time") as [v|]; cbn.
  - apply (Hok v eq_refl).
  - by exists 1.
Qed.

Lemma guard_rejected X request w :
  pending_expired X w ∨ pending_id_missing w ∨ pending_user_inactive w →
  pending_id_ok (session w) → pending_time_ok (session w) →
  Login2FAView_dispatch X request w = rejected w.
Proof.
  intros Hcond Hid Htime. rewrite guard_spec.
  destruct (pending_principal_ok w Hid) as [p Hp].
  destruct (pending_since_ok w Htime) as [t Ht].
  rewrite Hp, Ht.
  destruct (guard_condition X w Hcond) as [[Hnone | [e He]] | (t' & Ht' & Hlate)].
  - rewrite Hp in Hnone. by injection Hnone as ->.
  - congruence.
  - rewrite Ht in Ht'. injection Ht' as <-. rewrite Hlate. by destruct p.
Qed.

Lemma guard_keeps_trace X request w :
  pending_expired X w ∨ pending_id_missing w ∨ pending_user_inactive w →
  trace (Login2FAView_dispatch X request w).2 = trace w.
Proof.
  intros Hcond. rewrite guard_spec.
  destruct (guard_condition X w Hcond) as [[Hnone | [e He]] | (t' & Ht' & Hlate)].
  - rewrite Hnone. by destruct (pending_since w).
  - by rewrite He.
  - rewrite Ht', Hlate. destruct (pending_principal w) as [[u|]|]; done.
Qed.

(** *** The shape of the pending entries is an invariant *)

Section Preservation.

Context {A B : Type} (P : gmap string pyval → Prop).

Lemma preserves_ret (a : A) : preserves P (ret a).
Proof. by intros w. Qed.

Lemma preserves_raise (e : exn) : preserves P (raise (A := A) e).
Proof. by intros w. Qed.

Lemma preserves_bind (m : M A) (k : A → M B) :
  preserves P m → (∀ a, preserves P (k a)) → preserves P (bind m k).
Proof.
  intros Hm Hk w Hw. unfold bind. specialize (Hm w Hw).
  destruct (m w) as [[a|e] w']; [by apply Hk | done].
Qed.

Lemma preserves_try_except (body handler : M A) catches :
  preserves P body → preserves P handler → preserves P (try_except body catches handler).
Proof.
  intros Hbody Hhandler w Hw. unfold try_except. specialize (Hbody w Hw).
  destruct (body w) as [[a|e] w']; [done|]. destruct (catches e); [by apply Hhandler | done].
Qed.

Lemma preserves_atomic (body : M A) fault :
  preserves P body → preserves P (atomic fault body).
Proof.
  intros Hbody w Hw. unfold atomic. specialize (Hbody w Hw).
  destruct (body w) as [[a|e] w']; [by destruct (fault _) | done].
Qed.

Lemma preserves_frame (m : M A) :
  (∀ w, session (m w).2 = session w) → preserves P m.
Proof. intros Hm w Hw. by rewrite Hm. Qed.

End Preservation.

Lemma wf_insert k v s :
  (k = "pretix_auth_2fa_user" → ∃ key, prep_pk v = Ok key) →
  (k = "pretix_auth_2fa_time" → ∃ t, Py.int v = Ok t) →
  session_wf s → session_wf (<[k := v]> s).
Proof.
  intros Hid Htime [Hs1 Hs2]. split; intros v'.
  - destruct (decide (k = "pretix_auth_2fa_user")) as [->|Hne].
    + rewrite lookup_insert_eq. intros [= <-]. by apply Hid.
    + rewrite lookup_insert_ne by done. apply Hs1.
  - destruct (decide (k = "pretix_auth_2fa_time")) as [->|Hne].
    + rewrite lookup_insert_eq. intros [= <-]. by apply Htime.
    + rewrite lookup_insert_ne by done. apply Hs2.
Qed.

Lemma wf_delete k s : session_wf s → session_wf (delete k s).
Proof.
  intros [Hs1 Hs2]. split; intros v Hv.
  - apply Hs1. destruct (decide (k = "pretix_auth_2fa_user")) as [->|Hne].
    + by rewrite lookup_delete_eq in Hv.
    + by rewrite lookup_delete_ne in Hv.
  - apply Hs2. destruct (decide (k = "pretix_auth_2fa_time")) as [->|Hne].
    + by rewrite lookup_delete_eq in Hv.
    + by rewrite lookup_delete_ne in Hv.
Qed.

Lemma preserves_setitem k v :
  (k = "pretix_auth_2fa_user" → ∃ key, prep_pk v = Ok key) →
  (k = "pretix_auth_2fa_time" → ∃ t, Py.int v = Ok t) →
  preserves session_wf (session_setitem k v).
Proof. intros Hid Htime w Hw. by apply wf_insert. Qed.

Lemma preserves_delitem k : preserves session_wf (session_delitem k).
Proof.
  intros w Hw. unfold session_delitem. exec.
  destruct (session w !! k); cbn; [by apply wf_delete | done].
Qed.

Lemma preserves_pop k : preserves session_wf (session_pop k).
Proof.
  intros w Hw. unfold session_pop. exec.
  destruct (session w !! k); cbn; [by apply wf_delete | done].
Qed.

Lemma preserves_auth_login X u :
  auth_respects_shape X → preserves session_wf (auth_login X u).
Proof. intros [Hlogin _] w Hw. by apply Hlogin. Qed.

Lemma preserves_auth_logout X :
  auth_respects_shape X → preserves session_wf (auth_logout X).
Proof. intros [_ Hlogout] w Hw. by apply Hlogout. Qed.

(** Break a view into its statements; what is left are the writes to the
    session. *)
Ltac frame_step :=
  apply preserves_frame; intros ?; exec; repeat case_match; simplify_eq; reflexivity.

Ltac pres_step :=
  lazymatch goal with
  | |- preserves _ (ret _) => apply preserves_ret
  | |- preserves _ (raise _) => apply preserves_raise
  | |- preserves _ (bind _ _) => apply preserves_bind; [|intros ?]
  | |- preserves _ (try_except _ _ _) => apply preserves_try_except
  | |- preserves _ (atomic _ _) => apply preserves_atomic
  | |- preserves _ (session_delitem _) => apply preserves_delitem
  | |- preserves _ (session_pop _) => apply preserves_pop
  | |- preserves _ (auth_login _ _) => apply preserves_auth_login; assumption
  | |- preserves _ (auth_logout _) => apply preserves_auth_logout; assumption
  | |- preserves _ (session_setitem _ _) =>
      apply preserves_setitem;
        [first [discriminate | intros _; eexists; reflexivity]
        |first [discriminate | intros _; eexists; apply int_str_roundtrip]]
  | |- preserves _ (if ?b then _ else _) => destruct b
  | |- preserves _ (match ?x with _ => _ end) => destruct x
  | |- preserves _ _ => frame_step
  end.

Ltac pres := cbv zeta; repeat pres_step.

Section Invariant.

Variable X : Externals.
Hypothesis Hauth : auth_respects_shape X.

Lemma login_preserves_shape request : preserves session_wf (login X request).
Proof. unfold login. pres. Qed.

Lemma logout_preserves_shape request : preserves session_wf (logout X request).
Proof. unfold logout. pres. Qed.

Lemma create_and_login_preserves_shape request form :
  preserves session_wf (create_and_login X request form).
Proof. unfold create_and_login. pres. Qed.

Lemma register_preserves_shape request : preserves session_wf (register X request).
Proof. unfold register, create_and_login. pres. Qed.

Lemma invite_preserves_shape request token : preserves session_wf (invite X request token).
Proof.
  unfold invite, join_team, create_and_login. pres.
Qed.

Lemma Forgot_preserves_shape request : preserves session_wf (Forgot_dispatch X request).
Proof. unfold Forgot_dispatch, View_dispatch, Forgot_post, Forgot_get, Forgot_render. pres. Qed.

Lemma Recover_preserves_shape request : preserves session_wf (Recover_dispatch X request).
Proof.
  unfold Recover_dispatch, View_dispatch, Recover_post, Recover_get, Recover_check, Recover_invalid.
  pres.
Qed.

Lemma Login2FAView_preserves_shape request : preserves session_wf (Login2FAView_dispatch X request).
Proof.
  unfold Login2FAView_dispatch, View_dispatch, Login2FAView_get, Login2FAView_get_context_data,
    Login2FAView_post, Login2FAView_post_verify.
  pres.
Qed.

End Invariant.

Lemma serve_preserves_shape X c :
  auth_respects_shape X → preserves session_wf (serve X c).
Proof.
  intros Hauth. destruct c; cbn.
  - by apply login_preserves_shape.
  - by apply logout_preserves_shape.
  - by apply register_preserves_shape.
  - by apply invite_preserves_shape.
  - by apply Forgot_preserves_shape.
  - by apply Recover_preserves_shape.
  - by apply Login2FAView_preserves_shape.
Qed.

(** Every session this module produces from a readable one is readable. *)
Lemma serve_all_shape X calls w :
  auth_respects_shape X →
  session_wf (session w) → session_wf (session (serve_all X calls w)).
Proof.
  intros Hauth. unfold serve_all. revert w.
  induction calls as [|c calls IH]; intros w Hw; [done|].
  cbn. apply IH. by apply serve_preserves_shape.
Qed.

Lemma empty_session_wf : session_wf ∅.
Proof. split; intros v Hv; by rewrite lookup_empty in Hv. Qed.

Lemma demo_auth_respects_shape : auth_respects_shape Demo.ext.
Proof.
  split.
  - intros s u Hs. cbn. by apply wf_insert.
  - intros s _. apply empty_session_wf.
Qed.

(** C1.  For every request to the second-factor endpoint, whatever its
    method and whatever token it submits: when the pending start instant
    lies more than 300 seconds in the past, or the session holds no pending
    user id, or the stored id denotes no active user, the second-factor
    collaborators are never called (the trace of their calls is unchanged).
    On a session whose pending entries are readable the request is answered
    by the generic error and the redirect to the login entry point, with no
    other change than the consumed clock reading; every session this module
    makes out of an empty one, by any sequence of requests, is such a
    session. *)
Theorem guard_rejects_every_request X request w :
  pending_expired X w ∨ pending_id_missing w ∨ pending_user_inactive w →
  trace (Login2FAView_dispatch X request w).2 = trace w ∧
  (pending_id_ok (session w) → pending_time_ok (session w) →
   Login2FAView_dispatch X request w = rejected w) ∧
  (auth_respects_shape X →
   ∀ calls w0, session w0 = ∅ → w = serve_all X calls w0 →
   Login2FAView_dispatch X request w = rejected w).
Proof.
  intros Hcond. split; [|split].
  - by apply guard_keeps_trace.
  - by apply guard_rejected.
  - intros Hauth calls w0 Hempty ->.
    assert (session_wf (session (serve_all X calls w0))) as [Hid Htime].
    { apply serve_all_shape; [done|]. rewrite Hempty. apply empty_session_wf. }
    by apply guard_rejected.
Qed.

Lemma guard_rejects_every_request_witness :
  Login2FAView_dispatch Demo.ext (Demo.request POST ∅ {[ "token" := "123456" ]})
    (Demo.pending 400)
  = rejected (Demo.pending 400) ∧
  Login2FAView_dispatch Demo.ext (Demo.request GET ∅ ∅) Demo.anonymous
  = rejected Demo.anonymous ∧
  Login2FAView_dispatch Demo.ext (Demo.request POST ∅ {[ "token" := "123456" ]})
    (Demo.pending_carol 0)
  = rejected (Demo.pending_carol 0).
Proof.
  split; [|split].
  - apply (guard_rejects_every_request Demo.ext).
    + left. exists (PyStr "1000000"), 1000000. by vm_compute.
    + intros v Hv. vm_compute in Hv. injection Hv as <-. by eexists.
    + intros v Hv. vm_compute in Hv. injection Hv as <-. by eexists.
  - destruct (guard_rejects_every_request Demo.ext (Demo.request GET ∅ ∅) Demo.anonymous)
      as (_ & _ & Hreach).
    + right. left. reflexivity.
    + apply (Hreach demo_auth_respects_shape [] Demo.anonymous); reflexivity.
  - apply (guard_rejects_every_request Demo.ext).
    + right. right. exists (PyInt 9), (Some 9). by vm_compute.
    + intros v Hv. vm_compute in Hv. injection Hv as <-. by eexists.
    + intros v Hv. vm_compute in Hv. injection Hv as <-. by eexists.
Defined.

(** C10.  A session that holds a pending user id but no start instant is
    read with the sentinel instant 1; once the clock is past 301 seconds
    after the epoch the elapsed time exceeds 300 seconds, so the request is
    rejected to the login page and the second-factor collaborators are not
    called. *)
Theorem missing_timestamp_rejected X request w :
  is_Some (session w !! "pretix_auth_2fa_user") →
  session w !! "pretix_auth_2fa_time" = None →
  (301 < clock X (ticks w))%Q →
  pending_since w = Ok 1 ∧
  trace (Login2FAView_dispatch X request w).2 = trace w ∧
  (pending_id_ok (session w) → Login2FAView_dispatch X request w = rejected w).
Proof.
  intros Hid Htime Hclock.
  assert (pending_since w = Ok 1) as Hsince.
  { unfold pending_since. by rewrite Htime. }
  assert (Qlt_bool 300 (clock X (ticks w) - inject_Z 1) = true) as Hlate.
  { apply Qlt_bool_true. change (inject_Z 1) with 1%Q. lra. }
  split; [done|]. rewrite guard_spec, Hsince, Hlate. split.
  - by destruct (pending_principal w) as [[u|]|].
  - intros Hok. destruct (pending_principal_ok w Hok) as [p ->]. by destruct p.
Qed.

Lemma missing_timestamp_rejected_witness :
  session (Demo.untimed 0) !! "pretix_auth_2fa_time" = None ∧
  Login2FAView_dispatch Demo.ext (Demo.request POST ∅ {[ "token" := "123456" ]}) (Demo.untimed 0)
  = rejected (Demo.untimed 0).
Proof.
  split; [by vm_compute|].
  assert (301 < clock Demo.ext (ticks (Demo.untimed 0)))%Q as Hclock by by vm_compute.
  destruct (missing_timestamp_rejected Demo.ext
              (Demo.request POST ∅ {[ "token" := "123456" ]}) (Demo.untimed 0))
    as (_ & _ & Hrej); [vm_compute; by eexists | by vm_compute | exact Hclock |].
  apply Hrej. intros v Hv. vm_compute in Hv. injection Hv as <-. by eexists.
Defined.

(** ** Registration *)

(** C7.  With the registration flag off, every request to [register] ends
    in [PermissionDenied] and leaves the whole state as it was: the flag is
    tested before the form is built and before any user is created. *)
Theorem registration_disabled X request w :
  PRETIX_REGISTRATION (settings X) = false →
  register X request w = (Raise (PermissionDenied "Registration is disabled"), w).
Proof.
  intros Hoff. unfold register. by rewrite Hoff.
Qed.

Lemma registration_disabled_witness :
  register Demo.ext_minimal
    (Demo.request POST ∅ {[ "email" := "eve@example.org"; "password" := "apple" ]})
    Demo.anonymous
  = (Raise (PermissionDenied "Registration is disabled"), Demo.anonymous).
Proof.
  apply (registration_disabled Demo.ext_minimal). reflexivity.
Defined.
(** ** The second-factor submission *)

(** The verification step, by cases on the stored challenge and on the
    shape of the token. *)
Lemma post_verify_spec X request u w :
  Login2FAView_post_verify X request u w =
  match session w !! "_u2f_challenge" with
  | Some challenge =>
      if Py.startswith_char "{" (submitted_token request) then
        (Ok (verify_authenticate X (devices_of (db w) u) challenge
               (submitted_token request) [get_u2f_appid request]),
         add_event (EvVerifyAuthenticate (devices_of (db w) u) challenge
                      (submitted_token request) [get_u2f_appid request])
           (set_session (delete "_u2f_challenge") w))
      else (Ok (match_token X u (submitted_token request)),
            add_event (EvMatchToken (pk u) (submitted_token request)) w)
  | None => (Ok (match_token X u (submitted_token request)),
             add_event (EvMatchToken (pk u) (submitted_token request)) w)
  end.
Proof.
  unfold Login2FAView_post_verify, submitted_token, devices_of.
  destruct (session w !! "_u2f_challenge") as [ch|] eqn:Hch; exec; [|done].
  destruct (Py.startswith_char _ _); exec; [|done].
  by destruct (verify_authenticate _ _ _ _ _).
Qed.

Lemma post_valid X request u w w1 :
  Login2FAView_post_verify X request u w = (Ok true, w1) →
  is_Some (session_login X (session w1) u !! "pretix_auth_2fa_user") →
  is_Some (session_login X (session w1) u !! "pretix_auth_2fa_time") →
  Login2FAView_post X request u w
  = (Ok (Redirect (after_login X request)),
     tick (set_user (Some u)
            (set_session (elevated_session X u (clock X (ticks w1))) w1))).
Proof.
  intros Hverify [vu Hu] [vt Ht]. unfold Login2FAView_post, after_login, elevated_session.
  unfold bind at 1. rewrite Hverify. exec.
  rewrite lookup_insert_ne by done. rewrite Hu. cbn.
  rewrite lookup_delete_ne by done. rewrite lookup_insert_ne by done. rewrite Ht. cbn.
  by destruct (_ && _).
Qed.

Lemma post_invalid X request u w w1 :
  Login2FAView_post_verify X request u w = (Ok false, w1) →
  Login2FAView_post X request u w
  = (Ok (Redirect "control:auth.login.2fa"),
     add_message (LevelError, "Invalid code, please try again.") w1).
Proof.
  intros Hverify. unfold Login2FAView_post. unfold bind at 1. by rewrite Hverify.
Qed.

(** The verification step reads no clock and touches nothing but the
    trace and the stored challenge. *)
Lemma post_verify_frame X request u w r w1 :
  Login2FAView_post_verify X request u w = (r, w1) →
  ticks w1 = ticks w ∧ user w1 = user w ∧ db w1 = db w ∧ messages w1 = messages w ∧
  ∀ k, k ≠ "_u2f_challenge" → session w1 !! k = session w !! k.
Proof.
  rewrite post_verify_spec. intros Hrun.
  destruct (session w !! "_u2f_challenge"); [destruct (Py.startswith_char _ _)|];
    injection Hrun as <- <-; cbn; repeat split; try done.
  intros k Hk. by rewrite lookup_delete_ne.
Qed.

Lemma pending_principal_Some w u :
  pending_principal w = Ok (Some u) → is_Some (session w !! "pretix_auth_2fa_user").
Proof.
  unfold pending_principal. destruct (session w !! "pretix_auth_2fa_user"); [by eexists | done].
Qed.

Lemma second_factor_accepted X request w u w1 :
  method request = POST →
  within_window X w u →
  Login2FAView_post_verify X request u (tick w) = (Ok true, w1) →
  login_keeps X (session w1) u "pretix_auth_2fa_user" →
  login_keeps X (session w1) u "pretix_auth_2fa_time" →
  Login2FAView_dispatch X request w
  = (Ok (Redirect (after_login X request)),
     tick (set_user (Some u)
            (set_session (elevated_session X u (clock X (S (ticks w)))) w1))).
Proof.
  intros Hpost [Hu (v & t & Hv & Ht & Hin)] Hverify Hkeep_u Hkeep_t.
  destruct (post_verify_frame _ _ _ _ _ _ Hverify) as (Hticks & _ & _ & _ & Hsess).
  rewrite guard_spec, Hu. unfold pending_since. rewrite Hv. cbn. rewrite Ht.
  apply Qlt_bool_false in Hin. rewrite Hin.
  unfold View_dispatch. rewrite Hpost.
  rewrite (post_valid _ _ _ _ _ Hverify).
  - by rewrite Hticks.
  - rewrite Hkeep_u, Hsess by done. by apply pending_principal_Some in Hu.
  - rewrite Hkeep_t, Hsess by done. cbn. by rewrite Hv.
Qed.


Lemma guard_passes X request w u :
  within_window X w u →
  Login2FAView_dispatch X request w
  = View_dispatch request (Login2FAView_get X request u) (Login2FAView_post X request u)
      (tick w).
Proof.
  intros [Hu (v & t & Hv & Ht & Hin)].
  rewrite guard_spec, Hu. unfold pending_since. rewrite Hv. cbn. rewrite Ht.
  apply Qlt_bool_false in Hin. by rewrite Hin.
Qed.





(** C3.  When a challenge is stored and the submitted token has the shape
    of a challenge response, the verification step removes the challenge
    from the session and hands it to [verify_authenticate] once; whether
    that call returns or raises, the challenge is absent afterwards, and it
    is absent after the whole submission unless Django's [login] puts such
    an entry back. *)
Theorem challenge_consumed_on_use X request u w challenge :
  session w !! "_u2f_challenge" = Some challenge →
  Py.startswith_char "{" (submitted_token request) = true →
  let devices := devices_of (db w) u in
  let token := submitted_token request in
  Login2FAView_post_verify X request u w
  = (Ok (verify_authenticate X devices challenge token [get_u2f_appid request]),
     add_event (EvVerifyAuthenticate devices challenge token [get_u2f_appid request])
       (set_session (delete "_u2f_challenge") w)) ∧
  session (Login2FAView_post_verify X request u w).2 !! "_u2f_challenge" = None ∧
  (session_login X (delete "_u2f_challenge" (session w)) u !! "_u2f_challenge" = None →
   session (Login2FAView_post X request u w).2 !! "_u2f_challenge" = None).
Proof.
  intros Hch Hshape devices token.
  assert (Login2FAView_post_verify X request u w
          = (Ok (verify_authenticate X devices challenge token [get_u2f_appid request]),
             add_event (EvVerifyAuthenticate devices challenge token [get_u2f_appid request])
               (set_session (delete "_u2f_challenge") w))) as Hverify.
  { by rewrite post_verify_spec, Hch, Hshape. }
  split; [exact Hverify|]. split.
  - rewrite Hverify. cbn. apply lookup_delete_eq.
  - intros Hlogin. unfold Login2FAView_post. unfold bind at 1. rewrite Hverify.
    destruct (verify_authenticate X devices challenge token _).
    + exec. repeat case_match; simplify_eq; cbn;
        rewrite ?lookup_delete_ne, ?lookup_insert_ne by done; done.
    + cbn. apply lookup_delete_eq.
Qed.

Lemma challenge_consumed_on_use_witness :
  session (Login2FAView_post Demo.ext (Demo.request POST ∅ {[ "token" := "{forged}" ]})
             Demo.alice (Demo.challenged 1)).2 !! "_u2f_challenge" = None.
Proof.
  destruct (challenge_consumed_on_use Demo.ext
              (Demo.request POST ∅ {[ "token" := "{forged}" ]}) Demo.alice
              (Demo.challenged 1) (PyStr "{rnd2}")) as (_ & _ & Hgone).
  - by vm_compute.
  - by vm_compute.
  - apply Hgone. by vm_compute.
Defined.





(** ** Confirming a password reset *)









(** ** Accepting an invite *)

Lemma joined_effects inv u d :
  (team_pk (inv_team inv), pk u) ∈ members (joined inv u d) ∧
  logentries (joined inv u d) = (logentries d ++ [joined_entry inv u])%list ∧
  invites (joined inv u d) !! inv_token inv = None ∧
  users (joined inv u d) = users d.
Proof.
  repeat split; cbn.
  - set_solver.
  - apply lookup_delete_eq.
Qed.

(** The transaction, by the first interaction that fails: the three writes
    and the commit, in this order. *)
Lemma join_team_spec X inv u w :
  join_team X inv u w =
  if db_fault X (ticks w) then (Raise DatabaseError, later 1 w)
  else if db_fault X (S (ticks w)) then (Raise DatabaseError, later 2 w)
  else if db_fault X (S (S (ticks w))) then (Raise DatabaseError, later 3 w)
  else if db_fault X (S (S (S (ticks w)))) then (Raise DatabaseError, later 4 w)
  else (Ok (), set_db (joined inv u (db w)) (later 4 w)).
Proof.
  unfold join_team, atomic, joined, joined_entry, later.
  destruct (db_fault X (ticks w)) eqn:H0; exec; [done|].
  destruct (db_fault X (S (ticks w))) eqn:H1; exec; [done|].
  destruct (db_fault X (S (S (ticks w)))) eqn:H2; exec; [done|].
  destruct (db_fault X (S (S (S (ticks w))))) eqn:H3; exec; done.
Qed.

Lemma join_team_all_or_nothing X inv u w :
  (∃ w', join_team X inv u w = (Ok (), w') ∧ db w' = joined inv u (db w)) ∨
  (∃ w', join_team X inv u w = (Raise DatabaseError, w') ∧ db w' = db w).
Proof.
  rewrite join_team_spec.
  repeat (destruct (db_fault X _); [right; by eexists|]).
  left. by eexists.
Qed.

(** [invite] on its two accepting paths. *)
Lemma invite_authenticated X request token w inv u :
  invites (db w) !! token = Some inv →
  user w = Some u →
  (team_pk (inv_team inv), pk u) ∉ members (db w) →
  invite X request token w =
  match join_team X inv u w with
  | (Ok _, w') =>
      (Ok (Redirect "control:index"),
       add_message (LevelSuccess, "You are now part of the team " +:+ dquote
                                  +:+ team_name (inv_team inv) +:+ dquote +:+ ".") w')
  | (Raise e, w') => (Raise e, w')
  end.
Proof.
  intros Hinv Hu Hnew. unfold invite. exec.
  rewrite bool_decide_eq_false_2 by done.
  by destruct (join_team X inv u w) as [[[]|e] w'].
Qed.

Lemma invite_registering X request token w inv form :
  invites (db w) !! token = Some inv →
  user w = None →
  method request = POST →
  RegistrationForm X (db w) (req_POST request) = Some form →
  invite X request token w =
  match create_and_login X request form w with
  | (Ok u, w1) =>
      match join_team X inv u w1 with
      | (Ok _, w') =>
          (Ok (Redirect "control:index"),
           add_message (LevelSuccess,
                        "Welcome to pretix! You are now part of the team " +:+ dquote
                        +:+ team_name (inv_team inv) +:+ dquote +:+ ".") w')
      | (Raise e, w') => (Raise e, w')
      end
  | (Raise e, w1) => (Raise e, w1)
  end.
Proof.
  intros Hinv Hu Hpost Hform. unfold invite. exec.
  case_decide; [|done].
  destruct (create_and_login X request form w) as [[u|e] w1]; [|done].
  by destruct (join_team X inv u w1) as [[[]|e] w'].
Qed.

(** What the three writes of an acceptance leave in the database: [u] is a
    member of the team, the join entry is the last entry of the log, the
    invite is gone, and nothing else has changed. *)
Lemma joined_observed inv u d :
  (team_pk (inv_team inv), pk u) ∈ members (joined inv u d) ∧
  (∀ p, p ∈ members (joined inv u d) ↔
        p = (team_pk (inv_team inv), pk u) ∨ p ∈ members d) ∧
  logentries (joined inv u d) = (logentries d ++ [joined_entry inv u])%list ∧
  invites (joined inv u d) !! inv_token inv = None ∧
  (∀ k, k ≠ inv_token inv → invites (joined inv u d) !! k = invites d !! k) ∧
  users (joined inv u d) = users d ∧
  u2fdevices (joined inv u d) = u2fdevices d.
Proof.
  cbn. split_and!; try done.
  - set_solver.
  - intros p. set_solver.
  - apply lookup_delete_eq.
  - intros k Hk. by apply lookup_delete_ne.
Qed.

(** C5.  Accepting an invite adds the membership, writes the join entry
    and deletes the invite in one transaction.  The request either
    succeeds, and then the visitor is a member of the team, the join entry
    is the last entry of the log and no invite with the token of the
    accepted one is left, while members, log, invites and users are
    otherwise as before; or it fails with the database error, and then the
    database is the one from before the transaction: no membership, no
    entry, and the invite still there.  This holds for a visitor who is
    already logged in and for one who registers with the acceptance. *)
Theorem invite_acceptance_all_or_nothing X request token w inv :
  invites (db w) !! token = Some inv →
  (∀ u, user w = Some u →
        (team_pk (inv_team inv), pk u) ∉ members (db w) →
        acceptance_committed inv u (db w) (invite X request token w) ∨
        acceptance_rolled_back (db w) (invite X request token w)) ∧
  (∀ form u w1,
        user w = None → method request = POST →
        RegistrationForm X (db w) (req_POST request) = Some form →
        create_and_login X request form w = (Ok u, w1) →
        acceptance_committed inv u (db w1) (invite X request token w) ∨
        acceptance_rolled_back (db w1) (invite X request token w)).
Proof.
  intros Hinv. unfold acceptance_committed, acceptance_rolled_back. split.
  - intros u Hu Hnew.
    rewrite (invite_authenticated _ _ _ _ _ _ Hinv Hu Hnew).
    destruct (join_team_all_or_nothing X inv u w) as [(w' & -> & Hdb) | (w' & -> & Hdb)];
      [left | right]; cbn [fst snd db add_message]; rewrite Hdb; [|done].
    destruct (joined_observed inv u (db w)) as (? & ? & ? & ? & ? & ? & ?). done.
  - intros form u w1 Hu Hpost Hform Hcreate.
    rewrite (invite_registering _ _ _ _ _ _ Hinv Hu Hpost Hform), Hcreate.
    destruct (join_team_all_or_nothing X inv u w1) as [(w' & -> & Hdb) | (w' & -> & Hdb)];
      [left | right]; cbn [fst snd db add_message]; rewrite Hdb; [|done].
    destruct (joined_observed inv u (db w1)) as (? & ? & ? & ? & ? & ? & ?). done.
Qed.

Lemma invite_acceptance_all_or_nothing_witness :
  db (invite (Demo.ext_failing_write 2) (Demo.request GET ∅ ∅) "t0k3n"
        (set_user (Some Demo.bob) Demo.anonymous)).2 = Demo.database ∧
  (3, 10) ∈ members
    (db (invite Demo.ext
           (Demo.request POST ∅ {[ "email" := "dave@example.org"; "password" := "spade" ]})
           "t0k3n" Demo.anonymous).2) ∧
  invites
    (db (invite Demo.ext
           (Demo.request POST ∅ {[ "email" := "dave@example.org"; "password" := "spade" ]})
           "t0k3n" Demo.anonymous).2) !! "t0k3n" = None.
Proof.
  destruct (invite_acceptance_all_or_nothing (Demo.ext_failing_write 2)
              (Demo.request GET ∅ ∅) "t0k3n" (set_user (Some Demo.bob) Demo.anonymous)
              Demo.crew_invite) as [Hauth _]; [by vm_compute|].
  destruct (invite_acceptance_all_or_nothing Demo.ext
              (Demo.request POST ∅ {[ "email" := "dave@example.org"; "password" := "spade" ]})
              "t0k3n" Demo.anonymous Demo.crew_invite) as [_ Hreg]; [by vm_compute|].
  destruct (Hauth Demo.bob) as [(Hok & _) | [_ Hdb]]; [done | by vm_compute | |].
  { by vm_compute in Hok. }
  destruct (Hreg (mkRegData "dave@example.org" "spade" false)
              (mkUser 10 "dave@example.org" "hash:spade" true false "en" "UTC")
              (create_and_login Demo.ext
                 (Demo.request POST ∅
                    {[ "email" := "dave@example.org"; "password" := "spade" ]})
                 (mkRegData "dave@example.org" "spade" false) Demo.anonymous).2)
    as [(_ & Hmember & _ & _ & Hgone & _) | [Hfail _]];
    [done | done | by vm_compute | by vm_compute | |].
  - done.
  - by vm_compute in Hfail.
Defined.

(** *** Registration bundled with the acceptance *)

Lemma find_user_by_email (m : gmap Z User) (u : User) :
  List.find (λ p : Z * User, String.eqb (email p.2) (email u)) (map_to_list m) = None →
  snd <$> List.find (λ p : Z * User, String.eqb (email p.2) (email u))
            (map_to_list (<[pk u := u]> m)) = Some u.
Proof.
  intros Hfree.
  destruct (List.find _ (map_to_list (<[pk u := u]> m))) as [[z u']|] eqn:Hfind; cbn.
  - apply find_some in Hfind as [Hin Heq]. cbn in Heq.
    apply list_elem_of_In, elem_of_map_to_list in Hin.
    destruct (decide (pk u = z)) as [<-|Hne].
    + rewrite lookup_insert_eq in Hin. congruence.
    + rewrite lookup_insert_ne in Hin by done.
      apply elem_of_map_to_list, list_elem_of_In in Hin.
      apply (find_none _ _ Hfree) in Hin. cbn in Hin. congruence.
  - assert (In (pk u, u) (map_to_list (<[pk u := u]> m))) as Hin.
    { apply list_elem_of_In, elem_of_map_to_list, lookup_insert_eq. }
    apply (find_none _ _ Hfind) in Hin. cbn in Hin.
    by rewrite String.eqb_refl in Hin.
Qed.

Lemma email_taken_false d e :
  email_taken d e = false →
  List.find (λ p : Z * User, String.eqb (email p.2) e) (map_to_list (users d)) = None.
Proof.
  unfold email_taken, user_by_email. intros Hfree.
  apply bool_decide_eq_false in Hfree.
  destruct (List.find _ _); [|done]. exfalso. apply Hfree. by eexists.
Qed.

Lemma create_and_login_ok X request form w :
  db_fault X (ticks w) = false →
  db_fault X (S (ticks w)) = false →
  email_taken (db w) (reg_email form) = false →
  check_password X (reg_password form) (make_password X (reg_password form)) = true →
  create_and_login X request form w
  = (Ok (new_user X request form (db w)), registered X request form w).
Proof.
  intros Hcreate Hlog Hfree Hpw.
  unfold create_and_login, registered, registered_session, created_entry, later.
  exec. rewrite Hfree. exec.
  unfold user_by_email. cbn.
  pose proof (find_user_by_email (users (db w)) (new_user X request form (db w))
                (email_taken_false _ _ Hfree)) as Hfind.
  unfold new_user in *. cbn in Hfind. rewrite Hfind.
  cbn. rewrite Hpw. exec. done.
Qed.

(** C9.  In the registering acceptance the account is created, logged and
    logged in before the transaction starts.  When the transaction then
    fails (one of its three writes or its commit), the request fails, the
    new account and its creation entry stay in the database and the
    request's session and user are those of the logged-in newcomer, while
    membership and invites are as they were before the request and the
    log holds no join entry. *)
Theorem registration_outlives_failed_join X request token w inv form :
  invites (db w) !! token = Some inv →
  user w = None →
  method request = POST →
  RegistrationForm X (db w) (req_POST request) = Some form →
  db_fault X (ticks w) = false →
  db_fault X (S (ticks w)) = false →
  email_taken (db w) (reg_email form) = false →
  check_password X (reg_password form) (make_password X (reg_password form)) = true →
  (∃ k, (k < 4)%nat ∧ db_fault X (ticks w + 3 + k) = true) →
  let u := new_user X request form (db w) in
  let after := (invite X request token w).2 in
  (invite X request token w).1 = Raise DatabaseError ∧
  users (db after) !! pk u = Some u ∧
  logentries (db after) = (logentries (db w) ++ [created_entry u])%list ∧
  user after = Some u ∧
  session after = registered_session X form u (clock X (S (S (ticks w)))) (session w) ∧
  members (db after) = members (db w) ∧
  invites (db after) = invites (db w).
Proof.
  intros Hinv Hanon Hpost Hform Hcreate Hlog Hfree Hpw (k & Hk & Hfault) u after.
  subst after.
  assert (∃ j, invite X request token w
               = (Raise DatabaseError, later j (registered X request form w))) as [j Hrun].
  { rewrite (invite_registering _ _ _ _ _ _ Hinv Hanon Hpost Hform).
    rewrite (create_and_login_ok _ _ _ _ Hcreate Hlog Hfree Hpw).
    rewrite join_team_spec.
    change (ticks (registered X request form w)) with (S (S (S (ticks w)))).
    destruct (db_fault X (S (S (S (ticks w))))) eqn:H0; [by exists 1%nat|].
    destruct (db_fault X (S (S (S (S (ticks w)))))) eqn:H1; [by exists 2%nat|].
    destruct (db_fault X (S (S (S (S (S (ticks w))))))) eqn:H2; [by exists 3%nat|].
    destruct (db_fault X (S (S (S (S (S (S (ticks w)))))))) eqn:H3; [by exists 4%nat|].
    assert (k = 0 ∨ k = 1 ∨ k = 2 ∨ k = 3)%nat as [-> | [-> | [-> | ->]]] by lia.
    - replace (ticks w + 3 + 0)%nat with (S (S (S (ticks w)))) in Hfault by lia. congruence.
    - replace (ticks w + 3 + 1)%nat with (S (S (S (S (ticks w))))) in Hfault by lia.
      congruence.
    - replace (ticks w + 3 + 2)%nat with (S (S (S (S (S (ticks w)))))) in Hfault by lia.
      congruence.
    - replace (ticks w + 3 + 3)%nat with (S (S (S (S (S (S (ticks w))))))) in Hfault by lia.
      congruence. }
  assert (db (later j (registered X request form w)) = db (registered X request form w)
          ∧ user (later j (registered X request form w)) = user (registered X request form w)
          ∧ session (later j (registered X request form w))
            = session (registered X request form w)) as (Hdb & Huser & Hsession).
  { clear Hrun. induction j as [|j IH]; [done|]. cbn. apply IH. }
  rewrite Hrun. cbn [fst snd]. rewrite Hdb, Huser, Hsession. cbn.
  repeat split. apply lookup_insert_eq.
Qed.

Lemma registration_outlives_failed_join_witness :
  (invite (Demo.ext_failing_write 4)
     (Demo.request POST ∅ {[ "email" := "dave@example.org"; "password" := "spade" ]})
     "t0k3n" Demo.anonymous).1 = Raise DatabaseError ∧
  user (invite (Demo.ext_failing_write 4)
          (Demo.request POST ∅ {[ "email" := "dave@example.org"; "password" := "spade" ]})
          "t0k3n" Demo.anonymous).2
  = Some (mkUser 10 "dave@example.org" "hash:spade" true false "en" "UTC") ∧
  members (db (invite (Demo.ext_failing_write 4)
          (Demo.request POST ∅ {[ "email" := "dave@example.org"; "password" := "spade" ]})
          "t0k3n" Demo.anonymous).2) = ∅.
Proof.
  destruct (registration_outlives_failed_join (Demo.ext_failing_write 4)
              (Demo.request POST ∅ {[ "email" := "dave@example.org"; "password" := "spade" ]})
              "t0k3n" Demo.anonymous Demo.crew_invite
              (mkRegData "dave@example.org" "spade" false))
    as (Hfails & _ & _ & Huser & _ & Hmembers & _).
  - by vm_compute.
  - done.
  - done.
  - by vm_compute.
  - by vm_compute.
  - by vm_compute.
  - by vm_compute.
  - by vm_compute.
  - exists 1%nat. split; [lia | by vm_compute].
  - split; [exact Hfails | split; [exact Huser | exact Hmembers]].
Defined.

(** ** Requesting a password reset *)

Lemma Forgot_post_denied X request w u :
  PasswordForgotForm X (db w) (req_POST request) = Some u →
  HAS_REDIS (settings X) = true →
  cooldown_live X w u = true →
  Forgot_post X request w =
  if db_fault X (S (ticks w)) then (Raise DatabaseError, later 2 w)
  else (Ok (Redirect "control:auth.forgot"),
        add_message (LevelError, "We already sent you an email in the last 24 hours.")
          (set_db (db_add_log (denied_entry u) (db w)) (later 2 w))).
Proof.
  intros Hform Hredis Hlive. unfold Forgot_post, cooldown_live, cooldown_key, denied_entry in *.
  exec.
  destruct (redis w !! _) as [[v expiry]|]; [|done]. rewrite Hlive.
  exec. by destruct (db_fault X (S (ticks w))).
Qed.

Lemma Forgot_post_allowed X request w u :
  PasswordForgotForm X (db w) (req_POST request) = Some u →
  HAS_REDIS (settings X) = true →
  cooldown_live X w u = false →
  Forgot_post X request w =
  sending X request u
    (set_redis (<[cooldown_key u := ("1", (clock X (S (ticks w)) + inject_Z (3600 * 24))%Q)]>
                  (redis w)) (later 2 w)).
Proof.
  intros Hform Hredis Hlive.
  unfold Forgot_post, cooldown_live, cooldown_key, sending, recovery_mail, sent_entry in *.
  exec.
  assert (match redis w !! ("pretix_pwreset_" +:+ Py.str_of_int (pk u)) with
          | Some (_, expiry) => Qlt_bool (clock X (ticks w)) expiry
          | None => false
          end = false) as -> by done.
  exec. destruct (mail_fault X (S (S (ticks w)))); exec; [done|].
  by destruct (db_fault X (S (S (S (ticks w))))).
Qed.

Lemma Forgot_post_unguarded X request w u :
  PasswordForgotForm X (db w) (req_POST request) = Some u →
  HAS_REDIS (settings X) = false →
  Forgot_post X request w = sending X request u w.
Proof.
  intros Hform Hredis.
  unfold Forgot_post, sending, recovery_mail, sent_entry in *.
  exec. destruct (mail_fault X (ticks w)); exec; [done|].
  by destruct (db_fault X (S (ticks w))).
Qed.

Lemma later_frame k w :
  session (later k w) = session w ∧ user (later k w) = user w ∧
  messages (later k w) = messages w ∧ db (later k w) = db w ∧
  redis (later k w) = redis w ∧ outbox (later k w) = outbox w ∧
  trace (later k w) = trace w ∧ ticks (later k w) = (k + ticks w)%nat.
Proof.
  induction k as [|k IH]; [done|]. cbn. destruct IH as (?&?&?&?&?&?&?&?).
  repeat split; try done. by f_equal.
Qed.

Lemma Forgot_is_post X request w :
  PRETIX_PASSWORD_RESET (settings X) = true →
  method request = POST →
  Forgot_dispatch X request w = Forgot_post X request w.
Proof.
  intros Hon Hpost. unfold Forgot_dispatch, View_dispatch. by rewrite Hon, Hpost.
Qed.

Lemma Forgot_get_answers request w :
  ∃ response, Forgot_get request w = (Ok response, w).
Proof.
  unfold Forgot_get, Forgot_render. exec. destruct (bool_decide _); by eexists.
Qed.

Lemma sending_outbox X request u w :
  outbox (sending X request u w).2
  = if mail_fault X (ticks w) then outbox w else (outbox w ++ [recovery_mail X u])%list.
Proof.
  unfold sending. destruct (mail_fault X (ticks w)).
  - destruct (Forgot_get_answers request
                (add_message (LevelError,
                   "There was an error sending the mail. Please try again later.")
                   (later 1 w))) as [response ->]. done.
  - by destruct (db_fault X (S (ticks w))).
Qed.

Lemma sending_redis X request u w :
  redis (sending X request u w).2 = redis w.
Proof.
  unfold sending. destruct (mail_fault X (ticks w)).
  - destruct (Forgot_get_answers request
                (add_message (LevelError,
                   "There was an error sending the mail. Please try again later.")
                   (later 1 w))) as [response ->]. done.
  - by destruct (db_fault X (S (ticks w))).
Qed.

Lemma sending_answers X request u w :
  db_fault X (S (ticks w)) = false →
  ∃ response, (sending X request u w).1 = Ok response.
Proof.
  intros Hlog. unfold sending. rewrite Hlog. destruct (mail_fault X (ticks w)).
  - destruct (Forgot_get_answers request
                (add_message (LevelError,
                   "There was an error sending the mail. Please try again later.")
                   (later 1 w))) as [response ->]. by eexists.
  - by eexists.
Qed.

(** C6.  With the cooldown store: a reset request for a user without a
    live record stores a record that expires 24 hours (86 400 seconds)
    after the store's clock reading and hands at most one mail over; a
    second request for that user whose look at the store falls before the
    expiry hands no mail over and is answered by the redirect, the generic
    error and a [denied.repeated] entry in the log.  Without the store:
    the request goes straight to the hand-over, the store is not touched,
    and the request is answered unless the write of the log entry fails. *)
Theorem reset_cooldown X request1 request2 w u :
  PRETIX_PASSWORD_RESET (settings X) = true →
  method request1 = POST →
  method request2 = POST →
  PasswordForgotForm X (db w) (req_POST request1) = Some u →
  (HAS_REDIS (settings X) = true →
   cooldown_live X w u = false →
   let expiry := (clock X (S (ticks w)) + inject_Z 86400)%Q in
   let first := (Forgot_dispatch X request1 w).2 in
   redis first !! cooldown_key u = Some ("1", expiry) ∧
   outbox first = (if mail_fault X (S (S (ticks w))) then outbox w
                   else outbox w ++ [recovery_mail X u])%list ∧
   ∀ idle,
     let w2 := later idle first in
     PasswordForgotForm X (db w2) (req_POST request2) = Some u →
     (clock X (ticks w2) < expiry)%Q →
     outbox (Forgot_dispatch X request2 w2).2 = outbox first ∧
     (db_fault X (S (ticks w2)) = false →
      (Forgot_dispatch X request2 w2).1 = Ok (Redirect "control:auth.forgot") ∧
      logentries (db (Forgot_dispatch X request2 w2).2)
      = (logentries (db w2) ++ [denied_entry u])%list ∧
      messages (Forgot_dispatch X request2 w2).2
      = (messages w2
         ++ [(LevelError, "We already sent you an email in the last 24 hours.")])%list))
  ∧
  (HAS_REDIS (settings X) = false →
   outbox (Forgot_dispatch X request1 w).2
   = (if mail_fault X (ticks w) then outbox w else outbox w ++ [recovery_mail X u])%list ∧
   redis (Forgot_dispatch X request1 w).2 = redis w ∧
   (db_fault X (S (ticks w)) = false →
    ∃ response, (Forgot_dispatch X request1 w).1 = Ok response)).
Proof.
  intros Hon Hpost1 Hpost2 Hform. split.
  - intros Hredis Hfree expiry first.
    assert (first = (sending X request1 u
                       (set_redis (<[cooldown_key u := ("1", expiry)]> (redis w))
                          (later 2 w))).2) as Hfirst.
    { subst first. by rewrite Forgot_is_post, (Forgot_post_allowed _ _ _ u). }
    assert (redis first !! cooldown_key u = Some ("1", expiry)) as Hrecord.
    { rewrite Hfirst, sending_redis. cbn. apply lookup_insert_eq. }
    split; [exact Hrecord|]. split.
    { rewrite Hfirst, sending_outbox. done. }
    intros idle w2 Hform2 Hinside.
    destruct (later_frame idle first) as (_ & _ & Hmsg & Hdb & Hred & Hout & _ & _).
    assert (cooldown_live X w2 u = true) as Hlive.
    { unfold cooldown_live. subst w2. rewrite Hred, Hrecord. by apply Qlt_bool_true. }
    rewrite Forgot_is_post, (Forgot_post_denied _ _ _ u) by done.
    split.
    + destruct (db_fault X (S (ticks w2))); cbn; apply Hout.
    + intros ->. cbn. done.
  - intros Hredis. rewrite Forgot_is_post, (Forgot_post_unguarded _ _ _ u) by done.
    split; [apply sending_outbox | split; [apply sending_redis | apply sending_answers]].
Qed.

Lemma reset_cooldown_witness :
  outbox (Forgot_dispatch Demo.ext (Demo.request POST ∅ {[ "email" := "alice@example.org" ]})
            Demo.anonymous).2
  = [recovery_mail Demo.ext Demo.alice] ∧
  outbox (Forgot_dispatch Demo.ext (Demo.request POST ∅ {[ "email" := "alice@example.org" ]})
            (later 5 (Forgot_dispatch Demo.ext
                        (Demo.request POST ∅ {[ "email" := "alice@example.org" ]})
                        Demo.anonymous).2)).2
  = outbox (Forgot_dispatch Demo.ext (Demo.request POST ∅ {[ "email" := "alice@example.org" ]})
              Demo.anonymous).2.
Proof.
  destruct (reset_cooldown Demo.ext
              (Demo.request POST ∅ {[ "email" := "alice@example.org" ]})
              (Demo.request POST ∅ {[ "email" := "alice@example.org" ]})
              Demo.anonymous Demo.alice) as [Hstore _].
  - reflexivity.
  - reflexivity.
  - reflexivity.
  - by vm_compute.
  - destruct Hstore as (_ & Hfirst & Hsecond).
    + reflexivity.
    + by vm_compute.
    + split; [exact Hfirst|].
      apply (Hsecond 5%nat); by vm_compute.
Defined.

(** The whole elevation on the demo deployment: password step, page
    render with a fresh challenge, signed response. *)
Example password_then_second_factor :
  let w1 := (login Demo.ext
               (Demo.request POST ∅
                  {[ "email" := "alice@example.org"; "password" := "wonderland";
                     "keep_logged_in" := "on" ]})
               Demo.anonymous).2 in
  let w2 := (Login2FAView_dispatch Demo.ext (Demo.request GET ∅ ∅) w1).2 in
  let w3 := (Login2FAView_dispatch Demo.ext
               (Demo.request POST ∅ {[ "token" := "{signed}" ]}) w2).2 in
  user w1 = None ∧ user w2 = None ∧ user w3 = Some Demo.alice ∧
  session w2 !! "_u2f_challenge" = Some (PyStr "{rnd2}") ∧
  map_to_list (session w3)
  = [("_auth_user_id", PyStr "7"); ("pretix_auth_login_time", PyInt 1000004);
     ("pretix_auth_long_session", PyBool true)].
Proof. by vm_compute. Qed.

(** ** Scenarios on the demo deployment *)

Example recover_sets_password :
  let run := Recover_dispatch Demo.ext
               (Demo.request POST {[ "id" := "7"; "token" := "tok:hash:wonderland" ]}
                  {[ "password" := "rabbit" ]}) Demo.anonymous in
  run.1 = Ok (Redirect "control:auth.login") ∧
  password <$> users (db run.2) !! 7 = Some "hash:rabbit" ∧
  password <$> users (db run.2) !! 8 = Some "hash:builder".
Proof. by vm_compute. Qed.

Example forgot_twice_one_mail :
  let request := Demo.request POST ∅ {[ "email" := "alice@example.org" ]} in
  let first := Forgot_dispatch Demo.ext request Demo.anonymous in
  let second := Forgot_dispatch Demo.ext request first.2 in
  length (outbox first.2) = 1%nat ∧ length (outbox second.2) = 1%nat ∧
  log_type <$> logentries (db second.2)
  = ["pretix.control.auth.user.forgot_password.mail_sent";
     "pretix.control.auth.user.forgot_password.denied.repeated"].
Proof. by vm_compute. Qed.

Example invite_accepted_by_member_to_be :
  let run := invite Demo.ext (Demo.request GET ∅ ∅) "t0k3n"
               (set_user (Some Demo.bob) Demo.anonymous) in
  run.1 = Ok (Redirect "control:index") ∧
  db run.2 = joined Demo.crew_invite Demo.bob Demo.database ∧
  elements (members (db run.2)) = [(3, 8)] ∧
  invites (db run.2) !! "t0k3n" = None.
Proof. by vm_compute. Qed.

(** * Further properties of the views *)

(** ** What a view leaves alone *)

Section Frames.

Context {A B T : Type} (f : World → T).

Lemma keeps_ret (a : A) : keeps f (ret a).
Proof. by intros w. Qed.

Lemma keeps_raise (e : exn) : keeps f (raise (A := A) e).
Proof. by intros w. Qed.

Lemma keeps_bind (m : M A) (k : A → M B) :
  keeps f m → (∀ a, keeps f (k a)) → keeps f (bind m k).
Proof.
  intros Hm Hk w. unfold bind. specialize (Hm w).
  destruct (m w) as [[a|e] w']; [|done]. cbn in Hm. by rewrite Hk.
Qed.

Lemma keeps_try_except (body handler : M A) catches :
  keeps f body → keeps f handler → keeps f (try_except body catches handler).
Proof.
  intros Hbody Hhandler w. unfold try_except. specialize (Hbody w).
  destruct (body w) as [[a|e] w']; [done|]. cbn in Hbody.
  destruct (catches e); [by rewrite Hhandler | done].
Qed.

End Frames.

(** A statement of a view that is not a sequence is run as it is. *)
Ltac keeps_leaf :=
  intros ?; exec; repeat case_match; simplify_eq; reflexivity.

Ltac keeps_step :=
  lazymatch goal with
  | |- keeps _ (ret _) => apply keeps_ret
  | |- keeps _ (raise _) => apply keeps_raise
  | |- keeps _ (bind _ _) => apply keeps_bind; [|intros ?]
  | |- keeps _ (try_except _ _ _) => apply keeps_try_except
  | |- keeps _ (if ?b then _ else _) => destruct b
  | |- keeps _ (match ?x with _ => _ end) => destruct x
  | |- keeps _ _ => keeps_leaf
  end.

Ltac frames := cbv zeta; repeat keeps_step.

Lemma join_team_keeps_trace X inv u : keeps trace (join_team X inv u).
Proof. intros w. rewrite join_team_spec. by repeat case_match. Qed.

Lemma join_team_keeps_mailing X inv u : keeps mailing (join_team X inv u).
Proof. intros w. rewrite join_team_spec. by repeat case_match. Qed.

(** X1.  The second-factor collaborators (the one-time-code matcher and the
    hardware-token library) are called by the second-factor endpoint only:
    no request to [login], [logout], [register], [invite], [Forgot] or
    [Recover] calls them, whatever it carries and however it ends. *)
Theorem second_factor_only_at_its_endpoint X request token :
  keeps trace (login X request) ∧ keeps trace (logout X request) ∧
  keeps trace (register X request) ∧ keeps trace (invite X request token) ∧
  keeps trace (Forgot_dispatch X request) ∧ keeps trace (Recover_dispatch X request).
Proof.
  split_and!.
  - unfold login. frames.
  - unfold logout. frames.
  - unfold register, create_and_login. frames.
  - unfold invite, create_and_login. frames; apply join_team_keeps_trace.
  - unfold Forgot_dispatch, View_dispatch, Forgot_post, Forgot_get, Forgot_render. frames.
  - unfold Recover_dispatch, View_dispatch, Recover_post, Recover_get, Recover_check,
      Recover_invalid. frames.
Qed.

(** X2.  The password-reset flow never logs anyone in: no request to
    [Forgot] or [Recover], whatever it carries and however it ends, changes
    the session or [request.user]. *)
Theorem reset_flow_leaves_identity X request :
  keeps identity (Forgot_dispatch X request) ∧ keeps identity (Recover_dispatch X request).
Proof.
  split.
  - unfold Forgot_dispatch, View_dispatch, Forgot_post, Forgot_get, Forgot_render. frames.
  - unfold Recover_dispatch, View_dispatch, Recover_post, Recover_get, Recover_check,
      Recover_invalid. frames.
Qed.

(** X3.  Mail is handed over and the cooldown store is written by [Forgot]
    only: no request to [login], [logout], [register], [invite], [Recover]
    or the second-factor endpoint changes the mail queue or the store. *)
Theorem mail_only_from_forgot X request token :
  keeps mailing (login X request) ∧ keeps mailing (logout X request) ∧
  keeps mailing (register X request) ∧ keeps mailing (invite X request token) ∧
  keeps mailing (Recover_dispatch X request) ∧
  keeps mailing (Login2FAView_dispatch X request).
Proof.
  split_and!.
  - unfold login. frames.
  - unfold logout. frames.
  - unfold register, create_and_login. frames.
  - unfold invite, create_and_login. frames; apply join_team_keeps_mailing.
  - unfold Recover_dispatch, View_dispatch, Recover_post, Recover_get, Recover_check,
      Recover_invalid. frames.
  - unfold Login2FAView_dispatch, View_dispatch, Login2FAView_get,
      Login2FAView_get_context_data, Login2FAView_post, Login2FAView_post_verify. frames.
Qed.

(** X4.  Only a POST acts on storage: a request of any other method to
    [login], [register], [Forgot], [Recover] or the second-factor endpoint
    leaves the database, the cooldown store and the mail queue as they
    were. *)
Theorem only_post_writes X request :
  method request ≠ POST →
  keeps stores (login X request) ∧ keeps stores (register X request) ∧
  keeps stores (Forgot_dispatch X request) ∧ keeps stores (Recover_dispatch X request) ∧
  keeps stores (Login2FAView_dispatch X request).
Proof.
  intros Hmethod. split_and!.
  - unfold login. frames. all: done.
  - unfold register. frames. all: done.
  - unfold Forgot_dispatch, View_dispatch, Forgot_get, Forgot_render.
    destruct (method request); try done; frames.
  - unfold Recover_dispatch, View_dispatch, Recover_get, Recover_check, Recover_invalid.
    destruct (method request); try done; frames.
  - unfold Login2FAView_dispatch, View_dispatch, Login2FAView_get,
      Login2FAView_get_context_data.
    destruct (method request); try done; frames.
Qed.

Lemma only_post_writes_witness :
  stores (Login2FAView_dispatch Demo.ext (Demo.request GET ∅ ∅) (Demo.pending 0)).2
  = stores (Demo.pending 0).
Proof.
  destruct (only_post_writes Demo.ext (Demo.request GET ∅ ∅)) as (_ & _ & _ & _ & H2fa).
  - discriminate.
  - apply H2fa.
Defined.

(** X5.  A logged-in visitor's invite request is handled without reading
    the request: its method, parameters and body do not matter, so opening
    the invite link with GET accepts the invite just as a POST does. *)
Theorem invite_of_member_ignores_request X request1 request2 token w :
  is_Some (user w) →
  invite X request1 token w = invite X request2 token w.
Proof.
  intros [u Hu]. unfold invite. exec.
  destruct (invites (db w) !! token) as [inv|]; exec; reflexivity.
Qed.

Lemma invite_of_member_ignores_request_witness :
  invite Demo.ext (Demo.request GET ∅ ∅) "t0k3n" (set_user (Some Demo.bob) Demo.anonymous)
  = invite Demo.ext (Demo.request POST ∅ {[ "email" := "x" ]}) "t0k3n"
      (set_user (Some Demo.bob) Demo.anonymous).
Proof.
  apply (invite_of_member_ignores_request Demo.ext). by eexists.
Defined.

(** X6.  [invite] does not consult the registration flag: switching
    registration off leaves every invite request, the registering one
    included, handled exactly as before. *)
Theorem invite_ignores_registration_flag X b request token w :
  invite (with_registration b X) request token w = invite X request token w.
Proof. reflexivity. Qed.

(** ** The password step and what follows it *)

Lemma int_of_float_bounds q :
  (0 <= q)%Q →
  (inject_Z (Py.int_of_float q) <= q)%Q ∧ (q < inject_Z (Py.int_of_float q) + 1)%Q.
Proof.
  intros Hq. unfold Py.int_of_float.
  apply Qle_bool_iff in Hq. rewrite Hq. split.
  - apply Qfloor_le.
  - pose proof (Qlt_floor q) as Hlt. rewrite inject_Z_plus in Hlt. exact Hlt.
Qed.

Lemma after_login_safe X request : safe_target X request (after_login X request).
Proof.
  unfold after_login, safe_target, qd_contains, qd_get.
  destruct (req_GET request !! "next") as [next|]; cbn; [|by left].
  destruct (is_safe_url X next) eqn:Hsafe; [right | left]; done.
Qed.

(** X7.  The password step followed by a request to the second-factor
    endpoint.  After [login] has accepted the password of an active user
    who needs a second factor, the guard compares the clock with the whole
    second in which the password was accepted: the request is rejected when
    more than 300 seconds lie between them and handed to [get] or [post]
    otherwise.  Measured from the instant of the password step itself, every
    request later than 300 seconds is rejected and every request within 299
    seconds is let through. *)
Theorem password_then_guard X request request2 w form u idle :
  user w = None →
  method request = POST →
  LoginForm X (db w) (req_POST request) = Some form →
  user_cache form = Some u →
  require_2fa u = true →
  users (db w) !! pk u = Some u →
  is_active u = true →
  (0 <= clock X (ticks w))%Q →
  let w1 := later idle (login X request w).2 in
  let started := clock X (ticks w) in
  let now := clock X (ticks w1) in
  let handled := View_dispatch request2 (Login2FAView_get X request2 u)
                   (Login2FAView_post X request2 u) (tick w1) in
  Login2FAView_dispatch X request2 w1
  = (if Qlt_bool 300 (now - inject_Z (Py.int_of_float started)) then rejected w1
     else handled) ∧
  ((300 < now - started)%Q → Login2FAView_dispatch X request2 w1 = rejected w1) ∧
  ((now - started <= 299)%Q → Login2FAView_dispatch X request2 w1 = handled).
Proof.
  intros Hanon Hpost Hform Hu H2fa Hdb Hact Hepoch w1 started now handled.
  assert (Login2FAView_dispatch X request2 w1
          = (if Qlt_bool 300 (now - inject_Z (Py.int_of_float started)) then rejected w1
             else handled)) as Hrun.
  { rewrite guard_spec. subst w1 now handled started.
    rewrite (login_starts_pending _ _ _ _ _ Hanon Hpost Hform Hu H2fa). cbn [snd].
    destruct (later_frame idle
                (tick (set_session (session_after_password X form u (clock X (ticks w))) w)))
      as (Hs & _ & _ & Hd & _).
    destruct (login_pending_shape X form u (clock X (ticks w)) (session w))
      as (_ & _ & Hid & Htime & _).
    unfold pending_principal, pending_since. rewrite Hs, Hd. cbn [session db tick set_session].
    rewrite Hid, Htime.
    change (prep_pk (PyInt (pk u))) with (Ok (Some (pk u))). cbn.
    rewrite Hdb, Hact, int_str_roundtrip. done. }
  destruct (int_of_float_bounds started Hepoch) as [Hle Hlt].
  split; [exact Hrun|]. split; intros Hgap; rewrite Hrun.
  - assert (Qlt_bool 300 (now - inject_Z (Py.int_of_float started)) = true) as ->; [|done].
    apply Qlt_bool_true. lra.
  - assert (Qlt_bool 300 (now - inject_Z (Py.int_of_float started)) = false) as ->; [|done].
    apply Qlt_bool_false. lra.
Qed.

Lemma password_then_guard_witness :
  Login2FAView_dispatch Demo.ext (Demo.request OPTIONS ∅ ∅)
    (later 5 (login Demo.ext
                (Demo.request POST ∅
                   {[ "email" := "alice@example.org"; "password" := "wonderland" ]})
                Demo.anonymous).2)
  = (Ok OptionsResponse,
     tick (later 5 (login Demo.ext
                (Demo.request POST ∅
                   {[ "email" := "alice@example.org"; "password" := "wonderland" ]})
                Demo.anonymous).2)).
Proof.
  destruct (password_then_guard Demo.ext
              (Demo.request POST ∅
                 {[ "email" := "alice@example.org"; "password" := "wonderland" ]})
              (Demo.request OPTIONS ∅ ∅) Demo.anonymous
              (mkLoginData (Some Demo.alice) false) Demo.alice 5)
    as (_ & _ & Hnear);
    [done | done | by vm_compute | done | done | by vm_compute | done | by vm_compute |].
  apply Hnear. by vm_compute.
Defined.

(** X8.  A password login that needs no second factor logs the user in at
    once: [request.user] is the user, the login instant is the clock reading
    in whole seconds, the long-session flag is the conjunction of the setting
    and the form's choice, no pending entry is written by the view, and the
    redirect goes to [next] only if [is_safe_url] accepts it, else to the
    index page. *)
Theorem login_without_second_factor X request w form u :
  user w = None →
  method request = POST →
  LoginForm X (db w) (req_POST request) = Some form →
  user_cache form = Some u →
  require_2fa u = false →
  login X request w
  = (Ok (Redirect (after_login X request)),
     tick (set_user (Some u)
             (set_session (session_after_login X form u (clock X (ticks w))) w))) ∧
  safe_target X request (after_login X request).
Proof.
  intros Hanon Hpost Hform Hu H2fa. split; [|apply after_login_safe].
  unfold login, after_login, session_after_login. exec.
  case_decide; [|done]. rewrite Hform, Hu. exec. rewrite H2fa. exec.
  by destruct (_ && _).
Qed.

Lemma login_without_second_factor_witness :
  (login Demo.ext
     (Demo.request POST {[ "next" := "https://evil.example/" ]}
        {[ "email" := "bob@example.org"; "password" := "builder" ]})
     Demo.anonymous).1 = Ok (Redirect "/control:index").
Proof.
  destruct (login_without_second_factor Demo.ext
              (Demo.request POST {[ "next" := "https://evil.example/" ]}
                 {[ "email" := "bob@example.org"; "password" := "builder" ]})
              Demo.anonymous (mkLoginData (Some Demo.bob) false) Demo.bob)
    as [Hrun _]; [done | done | by vm_compute | done | done |].
  rewrite Hrun. by vm_compute.
Defined.

(** X9.  A visitor who is already logged in is sent on at once by [login],
    [register], [Forgot] and [Recover] (the latter two on GET): nothing is
    changed, and the redirect goes to the [next] parameter as given, without
    the [is_safe_url] test the login itself applies. *)
Theorem logged_in_visitor_is_sent_on X request w :
  is_Some (user w) →
  let sent_on := (Ok (Redirect (qd_get (req_GET request) "next" "control:index")), w) in
  login X request w = sent_on ∧
  (PRETIX_REGISTRATION (settings X) = true → register X request w = sent_on) ∧
  (PRETIX_PASSWORD_RESET (settings X) = true → method request = GET →
   Forgot_dispatch X request w = sent_on ∧ Recover_dispatch X request w = sent_on).
Proof.
  intros [u Hu] sent_on. subst sent_on. split_and!.
  - unfold login. exec. done.
  - intros Hon. unfold register. rewrite Hon. exec. done.
  - intros Hon Hget. unfold Forgot_dispatch, Recover_dispatch, View_dispatch, Forgot_get,
      Recover_get. rewrite Hon, Hget. exec. done.
Qed.

Lemma logged_in_visitor_is_sent_on_witness :
  login Demo.ext (Demo.request GET {[ "next" := "https://evil.example/" ]} ∅)
    (set_user (Some Demo.bob) Demo.anonymous)
  = (Ok (Redirect "https://evil.example/"), set_user (Some Demo.bob) Demo.anonymous).
Proof.
  destruct (logged_in_visitor_is_sent_on Demo.ext
              (Demo.request GET {[ "next" := "https://evil.example/" ]} ∅)
              (set_user (Some Demo.bob) Demo.anonymous)) as [Hlogin _]; [by eexists|].
  exact Hlogin.
Defined.

(** X10.  A login attempt that does not succeed changes nothing: for an
    anonymous visitor, a request that is no POST, a form that does not
    validate, or a valid form without a user all end in the login page
    being rendered, with the session, the user and everything else as
    before. *)
Theorem failed_login_changes_nothing X request w :
  user w = None →
  method request ≠ POST
  ∨ LoginForm X (db w) (req_POST request) = None
  ∨ (∃ form, LoginForm X (db w) (req_POST request) = Some form ∧ user_cache form = None) →
  ∃ ctx, login X request w = (Ok (Render "pretixcontrol/auth/login.html" ctx), w).
Proof.
  intros Hanon Hfail. unfold login. exec.
  case_decide as Hpost; [|by eexists].
  destruct Hfail as [Hne | [Hform | (form & Hform & Hu)]]; [done| |].
  - rewrite Hform. by eexists.
  - rewrite Hform, Hu. by eexists.
Qed.

Lemma failed_login_changes_nothing_witness :
  ∃ ctx, login Demo.ext
           (Demo.request POST ∅ {[ "email" := "alice@example.org"; "password" := "guess" ]})
           Demo.anonymous
         = (Ok (Render "pretixcontrol/auth/login.html" ctx), Demo.anonymous).
Proof.
  apply (failed_login_changes_nothing Demo.ext); [done|].
  right. left. by vm_compute.
Defined.

(** ** Invites *)

(** X11.  An invite link whose token matches no invite is answered by an
    error message and the redirect to the login page, for every visitor and
    every method, and changes nothing else. *)
Theorem invite_unknown_token X request token w :
  invites (db w) !! token = None →
  invite X request token w
  = (Ok (Redirect "control:auth.login"),
     add_message (LevelError, invalid_invite_message) w).
Proof.
  intros Hnone. unfold invite, invalid_invite_message. exec. done.
Qed.

Lemma invite_unknown_token_witness :
  invite Demo.ext (Demo.request GET ∅ ∅) "used" Demo.anonymous
  = (Ok (Redirect "control:auth.login"),
     add_message (LevelError, invalid_invite_message) Demo.anonymous).
Proof. apply (invite_unknown_token Demo.ext). by vm_compute. Defined.

(** X12.  A logged-in visitor who already belongs to the invite's team is
    told so and redirected to the index page; the invite is not consumed
    and nothing is written to the database. *)
Theorem invite_already_member X request token w inv u :
  invites (db w) !! token = Some inv →
  user w = Some u →
  (team_pk (inv_team inv), pk u) ∈ members (db w) →
  invite X request token w
  = (Ok (Redirect "control:index"),
     add_message (LevelError, already_member_message inv) w).
Proof.
  intros Hinv Hu Hmember. unfold invite, already_member_message. exec.
  by rewrite bool_decide_eq_true_2.
Qed.

Lemma invite_already_member_witness :
  invites (db (invite Demo.ext (Demo.request POST ∅ ∅) "t0k3n" (set_db (db_add_member Demo.crew Demo.bob Demo.database)
       (set_user (Some Demo.bob) Demo.anonymous))).2) !! "t0k3n"
  = Some Demo.crew_invite.
Proof.
  rewrite (invite_already_member Demo.ext _ _ _ Demo.crew_invite Demo.bob);
    [done | done | done | by vm_compute].
Defined.

(** ** Password resets *)

(** X13.  With the password-reset flag off, every request to [Forgot] and
    to [Recover] ends in [PermissionDenied] and leaves the whole state as it
    was. *)
Theorem password_reset_disabled X request w :
  PRETIX_PASSWORD_RESET (settings X) = false →
  Forgot_dispatch X request w = (Raise (PermissionDenied "Password reset is disabled"), w) ∧
  Recover_dispatch X request w = (Raise (PermissionDenied "Password reset is disabled"), w).
Proof.
  intros Hoff. unfold Forgot_dispatch, Recover_dispatch. by rewrite Hoff.
Qed.

Lemma password_reset_disabled_witness :
  Recover_dispatch (with_password_reset false Demo.ext)
    (Demo.request POST {[ "id" := "7"; "token" := "tok:hash:wonderland" ]}
       {[ "password" := "rabbit" ]}) Demo.anonymous
  = (Raise (PermissionDenied "Password reset is disabled"), Demo.anonymous).
Proof. apply (password_reset_disabled (with_password_reset false Demo.ext)). reflexivity. Defined.

Lemma first_request_record X request w u :
  PRETIX_PASSWORD_RESET (settings X) = true →
  method request = POST →
  HAS_REDIS (settings X) = true →
  PasswordForgotForm X (db w) (req_POST request) = Some u →
  cooldown_live X w u = false →
  redis (Forgot_dispatch X request w).2
  = <[cooldown_key u := ("1", (clock X (S (ticks w)) + inject_Z 86400)%Q)]> (redis w) ∧
  outbox (Forgot_dispatch X request w).2
  = (if mail_fault X (S (S (ticks w))) then outbox w
     else outbox w ++ [recovery_mail X u])%list.
Proof.
  intros Hon Hpost Hredis Hform Hfree.
  rewrite Forgot_is_post, (Forgot_post_allowed _ _ _ u) by done.
  by rewrite sending_redis, sending_outbox.
Qed.


(** X15.  The cooldown ends: once the store's clock has reached the expiry
    of the record, a reset request for the same user is treated like a
    first one, hands its mail over (unless the transport fails) and arms a
    new record. *)
Theorem cooldown_expires X request request2 w u :
  PRETIX_PASSWORD_RESET (settings X) = true →
  method request = POST →
  method request2 = POST →
  HAS_REDIS (settings X) = true →
  PasswordForgotForm X (db w) (req_POST request) = Some u →
  cooldown_live X w u = false →
  let first := (Forgot_dispatch X request w).2 in
  ∀ idle,
    let w2 := later idle first in
    PasswordForgotForm X (db w2) (req_POST request2) = Some u →
    (clock X (S (ticks w)) + inject_Z 86400 <= clock X (ticks w2))%Q →
    outbox (Forgot_dispatch X request2 w2).2
    = (if mail_fault X (S (S (ticks w2))) then outbox first
       else outbox first ++ [recovery_mail X u])%list ∧
    redis (Forgot_dispatch X request2 w2).2 !! cooldown_key u
    = Some ("1", (clock X (S (ticks w2)) + inject_Z 86400)%Q).
Proof.
  intros Hon Hpost Hpost2 Hredis Hform Hfree first idle w2 Hform2 Hpast.
  destruct (first_request_record _ _ _ _ Hon Hpost Hredis Hform Hfree) as [Hrec _].
  fold first in Hrec.
  destruct (later_frame idle first) as (_ & _ & _ & _ & Hred & Hout2 & _ & _).
  assert (cooldown_live X w2 u = false) as Hdead.
  { unfold cooldown_live. subst w2. rewrite Hred, Hrec, lookup_insert_eq.
    by apply Qlt_bool_false. }
  destruct (first_request_record _ _ _ _ Hon Hpost2 Hredis Hform2 Hdead) as [Hrec2 Hout].
  rewrite Hout, Hrec2, lookup_insert_eq. subst w2. by rewrite Hout2.
Qed.


Lemma cooldown_expires_witness :
  outbox (Forgot_dispatch Demo.ext
            (Demo.request POST ∅ {[ "email" := "alice@example.org" ]})
            (later (864 * 100)
               (Forgot_dispatch Demo.ext
                  (Demo.request POST ∅ {[ "email" := "alice@example.org" ]})
                  Demo.anonymous).2)).2
  = [recovery_mail Demo.ext Demo.alice; recovery_mail Demo.ext Demo.alice].
Proof.
  destruct (cooldown_expires Demo.ext
              (Demo.request POST ∅ {[ "email" := "alice@example.org" ]})
              (Demo.request POST ∅ {[ "email" := "alice@example.org" ]})
              Demo.anonymous Demo.alice
              ltac:(done) ltac:(done) ltac:(done) ltac:(done)
              ltac:(by vm_compute) ltac:(by vm_compute) (864 * 100)%nat
              ltac:(by vm_compute) ltac:(by vm_compute)) as [Hout _].
  rewrite Hout. by vm_compute.
Defined.

(** ** Confirming a password reset *)

Lemma Recover_check_ok X request w u :
  reset_user request w = Ok (Some u) →
  check_token X u (req_GET request !! "token") = true →
  Recover_check X request w = (Ok (inr u), w).
Proof.
  unfold reset_user, Recover_check.
  destruct (prep_pk _) as [key|] eqn:Hkey; [|done]. intros [= Hu] Htoken.
  exec. by rewrite Htoken.
Qed.

Lemma Recover_post_accepted X request w u new_password :
  PasswordRecoverForm X (db w) (req_POST request) (req_GET request !! "id")
  = Some new_password →
  reset_user request w = Ok (Some u) →
  check_token X u (req_GET request !! "token") = true →
  Recover_post X request w
  = if db_fault X (ticks w) then (Raise DatabaseError, later 1 w)
    else if db_fault X (S (ticks w)) then
      (Raise DatabaseError,
       add_message (LevelSuccess, "You can now login using your new password.")
         (set_db (db_put_user (with_password X u new_password) (db w)) (later 2 w)))
    else
      (Ok (Redirect "control:auth.login"),
       add_message (LevelSuccess, "You can now login using your new password.")
         (set_db (db_add_log (recovered_entry u)
                    (db_put_user (with_password X u new_password) (db w))) (later 2 w))).
Proof.
  intros Hform Hu Htoken. unfold Recover_post. exec.
  unfold bind. rewrite (Recover_check_ok _ _ _ u) by done.
  unfold with_password, recovered_entry. exec.
  destruct (db_fault X (ticks w)); exec; [done|].
  by destruct (db_fault X (S (ticks w))).
Qed.

Lemma Recover_is_post X request w :
  PRETIX_PASSWORD_RESET (settings X) = true →
  method request = POST →
  Recover_dispatch X request w = Recover_post X request w.
Proof.
  intros Hon Hpost. unfold Recover_dispatch, View_dispatch. by rewrite Hon, Hpost.
Qed.

(** X16.  A reset confirmation with a valid form, a known user and an
    accepted token, none of whose writes fails, stores the hash of the new
    password for that user and changes nothing else about any user, logs
    the recovery on the user, shows the success message and redirects to
    the login page; the visitor is not logged in by it and no mail is
    sent. *)
Theorem reset_confirmation_sets_password X request w u new_password :
  PRETIX_PASSWORD_RESET (settings X) = true →
  method request = POST →
  PasswordRecoverForm X (db w) (req_POST request) (req_GET request !! "id")
  = Some new_password →
  reset_user request w = Ok (Some u) →
  check_token X u (req_GET request !! "token") = true →
  db_fault X (ticks w) = false →
  db_fault X (S (ticks w)) = false →
  let out := Recover_dispatch X request w in
  out.1 = Ok (Redirect "control:auth.login") ∧
  users (db out.2) !! pk u = Some (with_password X u new_password) ∧
  (∀ z, z ≠ pk u → users (db out.2) !! z = users (db w) !! z) ∧
  logentries (db out.2) = (logentries (db w) ++ [recovered_entry u])%list ∧
  members (db out.2) = members (db w) ∧
  invites (db out.2) = invites (db w) ∧
  messages out.2
  = (messages w ++ [(LevelSuccess, "You can now login using your new password.")])%list ∧
  identity out.2 = identity w ∧
  mailing out.2 = mailing w.
Proof.
  intros Hon Hpost Hform Hu Htoken Hsave Hlog out. subst out.
  rewrite Recover_is_post, (Recover_post_accepted _ _ _ u new_password) by done.
  rewrite Hsave, Hlog. cbn.
  split_and!; try done.
  - apply lookup_insert_eq.
  - intros z Hz. by apply lookup_insert_ne.
Qed.

Lemma reset_confirmation_sets_password_witness :
  password <$> users (db (Recover_dispatch Demo.ext
                            (Demo.request POST
                               {[ "id" := "7"; "token" := "tok:hash:wonderland" ]}
                               {[ "password" := "rabbit" ]}) Demo.anonymous).2) !! 7
  = Some "hash:rabbit".
Proof.
  destruct (reset_confirmation_sets_password Demo.ext
              (Demo.request POST {[ "id" := "7"; "token" := "tok:hash:wonderland" ]}
                 {[ "password" := "rabbit" ]}) Demo.anonymous Demo.alice "rabbit")
    as (_ & Hstored & _);
    [done | done | by vm_compute | by vm_compute | by vm_compute | done | done |].
  change 7 with (pk Demo.alice). by rewrite Hstored.
Defined.

(** X17.  The confirmation is not one transaction: when the save of the
    user succeeds and the write of the log entry fails, the request ends in
    the database error, and the new password stays stored, without a log
    entry of the recovery. *)
Theorem reset_confirmation_is_not_atomic X request w u new_password :
  PRETIX_PASSWORD_RESET (settings X) = true →
  method request = POST →
  PasswordRecoverForm X (db w) (req_POST request) (req_GET request !! "id")
  = Some new_password →
  reset_user request w = Ok (Some u) →
  check_token X u (req_GET request !! "token") = true →
  db_fault X (ticks w) = false →
  db_fault X (S (ticks w)) = true →
  let out := Recover_dispatch X request w in
  out.1 = Raise DatabaseError ∧
  users (db out.2) !! pk u = Some (with_password X u new_password) ∧
  logentries (db out.2) = logentries (db w).
Proof.
  intros Hon Hpost Hform Hu Htoken Hsave Hlog out. subst out.
  rewrite Recover_is_post, (Recover_post_accepted _ _ _ u new_password) by done.
  rewrite Hsave, Hlog. cbn. split_and!; try done. apply lookup_insert_eq.
Qed.

Lemma reset_confirmation_is_not_atomic_witness :
  password <$> users (db (Recover_dispatch (Demo.ext_failing_write 1)
                            (Demo.request POST
                               {[ "id" := "7"; "token" := "tok:hash:wonderland" ]}
                               {[ "password" := "rabbit" ]}) Demo.anonymous).2) !! 7
  = Some "hash:rabbit".
Proof.
  destruct (reset_confirmation_is_not_atomic (Demo.ext_failing_write 1)
              (Demo.request POST {[ "id" := "7"; "token" := "tok:hash:wonderland" ]}
                 {[ "password" := "rabbit" ]}) Demo.anonymous Demo.alice "rabbit")
    as (_ & Hstored & _);
    [done | done | by vm_compute | by vm_compute | by vm_compute | done | done |].
  change 7 with (pk Demo.alice). by rewrite Hstored.
Defined.

(** X18.  An anonymous visitor who opens a reset link with a known user
    and an accepted token, or submits a form that does not validate on
    it, is shown the confirmation form, and nothing changes. *)
Theorem reset_link_opens_form X request w u :
  PRETIX_PASSWORD_RESET (settings X) = true →
  user w = None →
  reset_user request w = Ok (Some u) →
  check_token X u (req_GET request !! "token") = true →
  method request = GET ∨ method request = HEAD ∨
  (method request = POST ∧
   PasswordRecoverForm X (db w) (req_POST request) (req_GET request !! "id") = None) →
  Recover_dispatch X request w
  = (Ok (Render "pretixcontrol/auth/recover.html"
           [("form", CForm (bool_decide (method request = POST)))]), w).
Proof.
  intros Hon Hanon Hu Htoken Hcase.
  assert (Recover_get X request w
          = (Ok (Render "pretixcontrol/auth/recover.html"
                   [("form", CForm (bool_decide (method request = POST)))]), w)) as Hget.
  { unfold Recover_get. exec. unfold bind.
    by rewrite (Recover_check_ok _ _ _ u). }
  unfold Recover_dispatch, View_dispatch. rewrite Hon. cbn.
  destruct Hcase as [Hm | [Hm | [Hm Hform]]]; rewrite Hm in *; try done.
  unfold Recover_post. exec. by rewrite (Recover_check_ok _ _ _ u).
Qed.

Lemma reset_link_opens_form_witness :
  Recover_dispatch Demo.ext
    (Demo.request GET {[ "id" := "7"; "token" := "tok:hash:wonderland" ]} ∅)
    Demo.anonymous
  = (Ok (Render "pretixcontrol/auth/recover.html" [("form", CForm false)]),
     Demo.anonymous).
Proof.
  rewrite (reset_link_opens_form Demo.ext _ _ Demo.alice);
    [done | done | done | by vm_compute | by vm_compute | by left].
Defined.

(** ** Registration *)

(** X19.  A valid registration by an anonymous visitor, none of whose
    writes fails, creates the account under the next key of the sequence,
    active and without second factor, logs its creation, logs the visitor
    in as the new user and redirects to the index page whatever [next]
    says; no other user, no membership and no invite changes and no mail
    is sent. *)
Theorem register_creates_account X request w form :
  PRETIX_REGISTRATION (settings X) = true →
  user w = None →
  method request = POST →
  RegistrationForm X (db w) (req_POST request) = Some form →
  db_fault X (ticks w) = false →
  db_fault X (S (ticks w)) = false →
  email_taken (db w) (reg_email form) = false →
  check_password X (reg_password form) (make_password X (reg_password form)) = true →
  let u := new_user X request form (db w) in
  let out := register X request w in
  out.1 = Ok (Redirect "control:index") ∧
  user out.2 = Some u ∧
  session out.2 = registered_session X form u (clock X (S (S (ticks w)))) (session w) ∧
  users (db out.2) !! users_seq (db w) = Some u ∧
  (∀ z, z ≠ users_seq (db w) → users (db out.2) !! z = users (db w) !! z) ∧
  is_active u = true ∧ require_2fa u = false ∧
  logentries (db out.2) = (logentries (db w) ++ [created_entry u])%list ∧
  members (db out.2) = members (db w) ∧
  invites (db out.2) = invites (db w) ∧
  mailing out.2 = mailing w.
Proof.
  intros Hon Hanon Hpost Hform Hcreate Hlog Hfree Hpw u out.
  assert (out = (Ok (Redirect "control:index"), registered X request form w)) as ->.
  { subst out. unfold register. rewrite Hon. exec. case_decide; [|done].
    rewrite Hform. by rewrite create_and_login_ok. }
  unfold registered, mailing. fold u. cbn.
  destruct (later_frame 3 w) as (_ & _ & _ & _ & Hredis & Houtbox & _ & _).
  unfold later in *. cbn in Hredis, Houtbox.
  split_and!; try done.
  - apply lookup_insert_eq.
  - intros z Hz. by apply lookup_insert_ne.
Qed.

Lemma register_creates_account_witness :
  user (register Demo.ext
          (Demo.request POST {[ "next" := "/elsewhere" ]}
             {[ "email" := "dave@example.org"; "password" := "secret" ]})
          Demo.anonymous).2
  = Some (mkUser 10 "dave@example.org" "hash:secret" true false "en" "UTC").
Proof.
  destruct (register_creates_account Demo.ext
              (Demo.request POST {[ "next" := "/elsewhere" ]}
                 {[ "email" := "dave@example.org"; "password" := "secret" ]})
              Demo.anonymous (mkRegData "dave@example.org" "secret" false))
    as (_ & Huser & _);
    [done | done | done | by vm_compute | done | done | by vm_compute | by vm_compute |].
  rewrite Huser. by vm_compute.
Defined.

(** X20.  Registration that does not go through changes nothing: for an
    anonymous visitor, a request that is no POST or a form that does not
    validate is answered by the registration form. *)
Theorem register_shows_form X request w :
  PRETIX_REGISTRATION (settings X) = true →
  user w = None →
  method request ≠ POST ∨ RegistrationForm X (db w) (req_POST request) = None →
  register X request w
  = (Ok (Render "pretixcontrol/auth/register.html"
           [("form", CForm (bool_decide (method request = POST)))]), w).
Proof.
  intros Hon Hanon Hcase. unfold register. rewrite Hon. exec.
  case_decide as Hm.
  - destruct Hcase as [?|Hform]; [done|]. by rewrite Hform, bool_decide_eq_true_2.
  - by rewrite bool_decide_eq_false_2.
Qed.

Lemma register_shows_form_witness :
  register Demo.ext
    (Demo.request POST ∅ {[ "email" := "alice@example.org"; "password" := "secret" ]})
    Demo.anonymous
  = (Ok (Render "pretixcontrol/auth/register.html" [("form", CForm true)]),
     Demo.anonymous).
Proof.
  rewrite (register_shows_form Demo.ext); [done | done | done |].
  right. by vm_compute.
Defined.

(** ** The second-factor page *)

Lemma get_with_devices X request u w :
  devices_of (db w) u ≠ [] →
  Login2FAView_get X request u w
  = (Ok (Render "pretixcontrol/auth/login_2fa.html"
           [("jsondata",
             CJson (Some (issued_challenge X (devices_of (db w) u) (ticks w))))]),
     set_session (insert "_u2f_challenge"
                    (PyStr (issued_challenge X (devices_of (db w) u) (ticks w))))
       (add_event (EvStartAuthenticate (devices_of (db w) u) (rand_bytes X (ticks w)))
          (tick w))).
Proof.
  unfold Login2FAView_get, Login2FAView_get_context_data, issued_challenge, devices_of.
  intros Hdevices. exec.
  destruct (u2f_json_data <$> _) as [|d ds]; [done|]. by exec.
Qed.

Lemma get_without_devices X request u w :
  devices_of (db w) u = [] →
  (Login2FAView_get X request u w).1
  = Ok (Render "pretixcontrol/auth/login_2fa.html" [("jsondata", CJson None)]) ∧
  session (Login2FAView_get X request u w).2 = delete "_u2f_challenge" (session w) ∧
  trace (Login2FAView_get X request u w).2 = trace w ∧
  ticks (Login2FAView_get X request u w).2 = ticks w.
Proof.
  unfold Login2FAView_get, Login2FAView_get_context_data, devices_of.
  intros Hdevices. exec. rewrite Hdevices. exec.
  destruct (session w !! "_u2f_challenge") as [c|] eqn:Hc; exec;
    split_and!; try done.
  symmetry. by apply delete_id.
Qed.

(** X21.  Opening the second-factor page inside the window: for a user
    with confirmed hardware devices a fresh challenge is drawn for exactly
    those devices, stored in the session over any earlier one and rendered
    as [jsondata]; for a user without such devices no challenge is left in
    the session and [jsondata] is empty.  Either way the pending entries
    and every other session entry stay. *)
Theorem second_factor_page X request w u :
  within_window X w u →
  method request = GET ∨ method request = HEAD →
  let devices := devices_of (db w) u in
  let json := issued_challenge X devices (S (ticks w)) in
  let out := Login2FAView_dispatch X request w in
  (devices ≠ [] →
   out.1 = Ok (Render "pretixcontrol/auth/login_2fa.html"
                 [("jsondata", CJson (Some json))]) ∧
   session out.2 !! "_u2f_challenge" = Some (PyStr json) ∧
   trace out.2
   = (trace w ++ [EvStartAuthenticate devices (rand_bytes X (S (ticks w)))])%list) ∧
  (devices = [] →
   out.1 = Ok (Render "pretixcontrol/auth/login_2fa.html" [("jsondata", CJson None)]) ∧
   session out.2 !! "_u2f_challenge" = None ∧
   trace out.2 = trace w) ∧
  ∀ k, k ≠ "_u2f_challenge" → session out.2 !! k = session w !! k.
Proof.
  intros Hwin Hmethod devices json out.
  assert (out = Login2FAView_get X request u (tick w)) as ->.
  { subst out. rewrite (guard_passes _ _ _ u) by done. unfold View_dispatch.
    by destruct Hmethod as [-> | ->]. }
  split_and!.
  - intros Hdevices. rewrite get_with_devices by done. cbn.
    split_and!; try done. apply lookup_insert_eq.
  - intros Hdevices.
    destruct (get_without_devices X request u (tick w) Hdevices) as (-> & -> & -> & _).
    split_and!; try done. apply lookup_delete_eq.
  - intros k Hk. destruct (decide (devices_of (db (tick w)) u = [])) as [Hnone|Hsome].
    + destruct (get_without_devices X request u (tick w) Hnone) as (_ & -> & _).
      by rewrite lookup_delete_ne.
    + rewrite get_with_devices by done. cbn. by rewrite lookup_insert_ne.
Qed.

Lemma second_factor_page_witness :
  session (Login2FAView_dispatch Demo.ext (Demo.request GET ∅ ∅) (Demo.challenged 5)).2
    !! "_u2f_challenge"
  = Some (PyStr "{rnd6}").
Proof.
  destruct (second_factor_page Demo.ext (Demo.request GET ∅ ∅) (Demo.challenged 5)
              Demo.alice) as ((_ & Hstored & _) & _).
  - split; [by vm_compute|]. exists (PyStr "1000000"), 1000000.
    split_and!; by vm_compute.
  - by left.
  - by vm_compute.
  - rewrite Hstored. by vm_compute.
Defined.

(** ** Submitting the second factor *)

(** After the verification step [post] calls no collaborator. *)
Lemma post_trace X request u w :
  trace (Login2FAView_post X request u w).2
  = trace (Login2FAView_post_verify X request u w).2.
Proof.
  unfold Login2FAView_post. unfold bind at 1.
  destruct (Login2FAView_post_verify X request u w) as [[valid|e] w1]; [|done].
  cbn [snd].
  match goal with
  | |- trace (?m w1).2 = _ => revert w1; change (keeps trace m)
  end.
  frames.
Qed.

Lemma remove_spaces_not_blank s : string_forall not_blank (Py.remove_spaces s) = true.
Proof.
  induction s as [|c s IH]; [done|]. cbn.
  destruct (Ascii.eqb c " ") eqn:Hc; [done|]. cbn. unfold not_blank at 1. by rewrite Hc.
Qed.

(** X22.  The hardware round trip: the response submitted after the
    second-factor page was opened is verified against exactly the challenge
    that page drew and rendered, for the same devices and with the origin
    of the submitting request as the only application id.  When the
    library rejects it, the visitor is sent back to the second-factor page
    and the challenge is gone from the session. *)
Theorem challenge_round_trip X page_request answer w u idle :
  within_window X w u →
  method page_request = GET →
  devices_of (db w) u ≠ [] →
  method answer = POST →
  Py.startswith_char "{" (submitted_token answer) = true →
  let devices := devices_of (db w) u in
  let json := issued_challenge X devices (S (ticks w)) in
  let w2 := later idle (Login2FAView_dispatch X page_request w).2 in
  within_window X w2 u →
  let out := Login2FAView_dispatch X answer w2 in
  trace out.2
  = (trace w ++
     [EvStartAuthenticate devices (rand_bytes X (S (ticks w)));
      EvVerifyAuthenticate devices (PyStr json) (submitted_token answer)
        [get_u2f_appid answer]])%list ∧
  (verify_authenticate X devices (PyStr json) (submitted_token answer)
     [get_u2f_appid answer] = false →
   out.1 = Ok (Redirect "control:auth.login.2fa") ∧
   session out.2 !! "_u2f_challenge" = None).
Proof.
  intros Hwin Hget Hdevices Hpost Hshape devices json w2 Hwin2 out.
  assert ((Login2FAView_dispatch X page_request w).2
          = set_session (insert "_u2f_challenge" (PyStr json))
              (add_event (EvStartAuthenticate devices (rand_bytes X (S (ticks w))))
                 (tick (tick w)))) as Hpage.
  { rewrite (guard_passes _ _ _ u) by done. unfold View_dispatch. rewrite Hget.
    by rewrite get_with_devices. }
  destruct (later_frame idle (Login2FAView_dispatch X page_request w).2)
    as (Hsession & _ & _ & Hdb & _ & _ & Htrace & _).
  fold w2 in Hsession, Hdb, Htrace. rewrite Hpage in Hsession, Hdb, Htrace.
  cbn in Hsession, Hdb, Htrace.
  assert (Login2FAView_post_verify X answer u (tick w2)
          = (Ok (verify_authenticate X devices (PyStr json) (submitted_token answer)
                   [get_u2f_appid answer]),
             add_event (EvVerifyAuthenticate devices (PyStr json) (submitted_token answer)
                          [get_u2f_appid answer])
               (set_session (delete "_u2f_challenge") (tick w2)))) as Hverify.
  { rewrite post_verify_spec. cbn [session db tick].
    by rewrite Hsession, Hdb, lookup_insert_eq, Hshape. }
  assert (out = Login2FAView_post X answer u (tick w2)) as ->.
  { subst out. rewrite (guard_passes _ _ _ u) by done. unfold View_dispatch.
    by rewrite Hpost. }
  split.
  - rewrite post_trace, Hverify. cbn. rewrite Htrace. by rewrite <- app_assoc.
  - intros Hrejected. rewrite Hrejected in Hverify.
    rewrite (post_invalid _ _ _ _ _ Hverify). cbn. split; [done|]. apply lookup_delete_eq.
Qed.

Lemma challenge_round_trip_witness :
  (Login2FAView_dispatch Demo.ext (Demo.request POST ∅ {[ "token" := "{forged}" ]})
     (later 10 (Login2FAView_dispatch Demo.ext (Demo.request GET ∅ ∅) (Demo.pending 5)).2)).1
  = Ok (Redirect "control:auth.login.2fa").
Proof.
  destruct (challenge_round_trip Demo.ext (Demo.request GET ∅ ∅)
              (Demo.request POST ∅ {[ "token" := "{forged}" ]}) (Demo.pending 5)
              Demo.alice 10) as [_ Hrejected].
  - split; [by vm_compute|]. exists (PyStr "1000000"), 1000000.
    split_and!; by vm_compute.
  - done.
  - by vm_compute.
  - done.
  - by vm_compute.
  - split; [by vm_compute|]. exists (PyStr "1000000"), 1000000.
    split_and!; by vm_compute.
  - apply Hrejected. by vm_compute.
Defined.

(** X23.  A wrong second factor costs nothing but the challenge: the
    visitor is sent back to the second-factor page with an error message,
    is not logged in, and every session entry other than the challenge is
    as before, so that the session is still pending for the same user and
    the next attempt inside the 300 seconds is handled again.  No attempt
    is counted. *)
Theorem wrong_second_factor_can_be_retried X request w u :
  within_window X w u →
  method request = POST →
  (Login2FAView_post_verify X request u (tick w)).1 = Ok false →
  let out := Login2FAView_dispatch X request w in
  out.1 = Ok (Redirect "control:auth.login.2fa") ∧
  messages out.2
  = (messages w ++ [(LevelError, "Invalid code, please try again.")])%list ∧
  user out.2 = user w ∧
  db out.2 = db w ∧
  (∀ k, k ≠ "_u2f_challenge" → session out.2 !! k = session w !! k) ∧
  ∀ idle t,
    pending_since w = Ok t →
    (clock X (ticks (later idle out.2)) - inject_Z t <= 300)%Q →
    within_window X (later idle out.2) u.
Proof.
  intros Hwin Hpost Hwrong out.
  destruct (Login2FAView_post_verify X request u (tick w)) as [r w1] eqn:Hverify.
  cbn in Hwrong. subst r.
  destruct (post_verify_frame _ _ _ _ _ _ Hverify) as (_ & Huser & Hdb & Hmsg & Hsess).
  assert (out = (Ok (Redirect "control:auth.login.2fa"),
                 add_message (LevelError, "Invalid code, please try again.") w1)) as ->.
  { subst out. rewrite (guard_passes _ _ _ u) by done. unfold View_dispatch.
    rewrite Hpost. by apply post_invalid. }
  cbn [fst snd]. split_and!; try done.
  - cbn. by rewrite Hmsg.
  - intros idle t Hsince Hinside.
    destruct (later_frame idle
                (add_message (LevelError, "Invalid code, please try again.") w1))
      as (Hs & _ & _ & Hd & _).
    cbn in Hs, Hd.
    destruct Hwin as [Hu (v & t' & Hv & Ht & _)].
    assert (t' = t) as ->.
    { unfold pending_since in Hsince. rewrite Hv in Hsince. cbn in Hsince. congruence. }
    split.
    + unfold pending_principal in *. rewrite Hs, Hd, Hdb. cbn [db tick].
      rewrite Hsess by done. exact Hu.
    + exists v, t. rewrite Hs, Hsess by done. done.
Qed.

Lemma wrong_second_factor_can_be_retried_witness :
  within_window Demo.ext
    (later 20 (Login2FAView_dispatch Demo.ext
                 (Demo.request POST ∅ {[ "token" := "000000" ]}) (Demo.pending 5)).2)
    Demo.alice.
Proof.
  destruct (wrong_second_factor_can_be_retried Demo.ext
              (Demo.request POST ∅ {[ "token" := "000000" ]}) (Demo.pending 5) Demo.alice)
    as (_ & _ & _ & _ & _ & Hagain).
  - split; [by vm_compute|]. exists (PyStr "1000000"), 1000000.
    split_and!; by vm_compute.
  - done.
  - by vm_compute.
  - apply (Hagain 20%nat 1000000); by vm_compute.
Defined.

(** X24.  Without a challenge in flight, or for a token that does not
    start with a brace, the submission goes to the one-time-code matcher
    and to it alone, once, with the token stripped of surrounding
    whitespace and of every blank; a code the matcher rejects sends the
    visitor back to the second-factor page. *)
Theorem code_checked_without_blanks X request w u :
  within_window X w u →
  method request = POST →
  session w !! "_u2f_challenge" = None ∨
  Py.startswith_char "{" (submitted_token request) = false →
  let out := Login2FAView_dispatch X request w in
  trace out.2 = (trace w ++ [EvMatchToken (pk u) (submitted_token request)])%list ∧
  string_forall not_blank (submitted_token request) = true ∧
  (match_token X u (submitted_token request) = false →
   out.1 = Ok (Redirect "control:auth.login.2fa")).
Proof.
  intros Hwin Hpost Hcase out.
  assert (Login2FAView_post_verify X request u (tick w)
          = (Ok (match_token X u (submitted_token request)),
             add_event (EvMatchToken (pk u) (submitted_token request)) (tick w)))
    as Hverify.
  { rewrite post_verify_spec. cbn [session tick].
    destruct Hcase as [-> | Hshape]; [done|].
    rewrite Hshape. by destruct (session w !! "_u2f_challenge"). }
  assert (out = Login2FAView_post X request u (tick w)) as ->.
  { subst out. rewrite (guard_passes _ _ _ u) by done. unfold View_dispatch.
    by rewrite Hpost. }
  split_and!.
  - by rewrite post_trace, Hverify.
  - apply remove_spaces_not_blank.
  - intros Hrejected. rewrite Hrejected in Hverify.
    by rewrite (post_invalid _ _ _ _ _ Hverify).
Qed.

Lemma code_checked_without_blanks_witness :
  trace (Login2FAView_dispatch Demo.ext
           (Demo.request POST ∅ {[ "token" := " 123 456 " ]}) (Demo.pending 5)).2
  = [EvMatchToken 7 "123456"].
Proof.
  destruct (code_checked_without_blanks Demo.ext
              (Demo.request POST ∅ {[ "token" := " 123 456 " ]}) (Demo.pending 5)
              Demo.alice) as (Htrace & _).
  - split; [by vm_compute|]. exists (PyStr "1000000"), 1000000.
    split_and!; by vm_compute.
  - done.
  - by left.
  - rewrite Htrace. by vm_compute.
Defined.
